(** * python-Pydantics: the variadic demo and the Student record validator

    A shallow embedding of [src/args_kwargs.py] and [src/main.py].

    - [Py]: the parts of the Python runtime the two scripts rely on
      (text, [str.replace], [str.isdigit], integer formatting, calendar
      dates, JSON text).
    - [Pydantic]: the pydantic machinery (release 1.10, the last of the
      v1 line whose [validator], [root_validator] and [class Config] the
      script uses) that gives the class declarations of [main.py] their
      meaning: [ModelField.validate], [validate_model],
      [BaseModel.__setattr__], [BaseModel.json].
    - [Main]: the four record schemas of [main.py] and their validators.
    - [ArgsKwargs]: [demo_function] and the two call forms of
      [args_kwargs.py].
    - [Examples], [Spec]: sample inputs, and the predicates the
      specification speaks in.
    - [ArgsKwargsSpec], [MainSpec]: the properties. *)

From Stdlib Require Import List ZArith NArith String Ascii Bool Lia.
From Stdlib Require Import DecimalString SpecFloat ListDec.
Import ListNotations.

Set Implicit Arguments.

(* ===================================================================== *)
(** * The Python runtime                                                   *)
(* ===================================================================== *)

Module Py.

(** ** Text

    A Python [str] is a sequence of Unicode code points. *)

Definition str := list N.

(** [py "..."] is the [str] of an ASCII literal of the source. *)
Definition py (s : string) : str := map N_of_ascii (list_ascii_of_string s).

Definition str_eqb (a b : str) : bool :=
  if list_eq_dec N.eq_dec a b then true else false.

(** Truth value of a [str]: the empty text is falsy. *)
Definition str_truthy (s : str) : bool :=
  match s with [] => false | _ :: _ => true end.

Definition hyphen : N := 45.

(** [s.replace(old, new)] for an [old] of length one, as in
    [v.replace('-', '')]: every occurrence of the character is replaced. *)
Definition replace1 (old : N) (new : str) (s : str) : str :=
  flat_map (fun c => if N.eqb c old then new else [c]) s.

(** The code points [c] with [Py_UNICODE_ISDIGIT(c)]: Unicode numeric type
    Digit or Decimal (table of Unicode 14.0, as inclusive ranges). The first
    range is '0'..'9'; the next two are the superscripts two, three, one. *)
Definition digit_ranges : list (N * N) :=
  [ (48, 57); (178, 179); (185, 185); (1632, 1641); (1776, 1785); (1984, 1993);
    (2406, 2415); (2534, 2543); (2662, 2671); (2790, 2799); (2918, 2927);
    (3046, 3055); (3174, 3183); (3302, 3311); (3430, 3439); (3558, 3567);
    (3664, 3673); (3792, 3801); (3872, 3881); (4160, 4169); (4240, 4249);
    (4969, 4977); (6112, 6121); (6160, 6169); (6470, 6479); (6608, 6618);
    (6784, 6793); (6800, 6809); (6992, 7001); (7088, 7097); (7232, 7241);
    (7248, 7257); (8304, 8304); (8308, 8313); (8320, 8329); (9312, 9320);
    (9332, 9340); (9352, 9360); (9450, 9450); (9461, 9469); (9471, 9471);
    (10102, 10110); (10112, 10120); (10122, 10130); (42528, 42537);
    (43216, 43225); (43264, 43273); (43472, 43481); (43504, 43513);
    (43600, 43609); (44016, 44025); (65296, 65305); (66720, 66729);
    (68160, 68163); (68912, 68921); (69216, 69224); (69714, 69722);
    (69734, 69743); (69872, 69881); (69942, 69951); (70096, 70105);
    (70384, 70393); (70736, 70745); (70864, 70873); (71248, 71257);
    (71360, 71369); (71472, 71481); (71904, 71913); (72016, 72025);
    (72784, 72793); (73040, 73049); (73120, 73129); (92768, 92777);
    (92864, 92873); (93008, 93017); (120782, 120831); (123200, 123209);
    (123632, 123641); (125264, 125273); (127232, 127242); (130032, 130041) ]%N.

Definition isdigit_char (c : N) : bool :=
  existsb (fun r => N.leb (fst r) c && N.leb c (snd r)) digit_ranges.

(** [s.isdigit()]: all characters are digits and there is at least one. *)
Definition isdigit (s : str) : bool :=
  match s with
  | [] => false
  | _ :: _ => forallb isdigit_char s
  end.

(** ** Integers as text *)

(** [str(z)] for an [int]. *)
Definition str_of_Z (z : Z) : str := py (NilZero.string_of_int (Z.to_int z)).

(** [f"{z:0{w}d}"] for a non-negative [z]: decimal, left-padded with zeros. *)
Definition zero_pad (w : nat) (z : Z) : str :=
  let d := str_of_Z z in repeat 48%N (w - List.length d) ++ d.

(** ** Calendar dates *)

Record date := Date { year : Z; month : Z; day : Z }.

Definition is_leap (y : Z) : bool :=
  (Z.eqb (y mod 4) 0 && negb (Z.eqb (y mod 100) 0)) || Z.eqb (y mod 400) 0.

Definition days_in_month (y m : Z) : Z :=
  if Z.eqb m 2 then (if is_leap y then 29 else 28)
  else if Z.eqb m 4 || Z.eqb m 6 || Z.eqb m 9 || Z.eqb m 11 then 30
  else 31.

(** The triples [date(y, m, d)] accepts. *)
Definition valid_date (d : date) : bool :=
  Z.leb 1 (year d) && Z.leb (year d) 9999 &&
  Z.leb 1 (month d) && Z.leb (month d) 12 &&
  Z.leb 1 (day d) && Z.leb (day d) (days_in_month (year d) (month d)).

(** The calendar day after [d] ([d + timedelta(days=1)]). *)
Definition next_day (d : date) : date :=
  if Z.ltb (day d) (days_in_month (year d) (month d))
  then Date (year d) (month d) (day d + 1)
  else if Z.ltb (month d) 12 then Date (year d) (month d + 1) 1
  else Date (year d + 1) 1 1.

(** [(a1, b1) < (a2, b2)] on pairs of integers: the first components that
    differ decide. *)
Definition pair_lt (p q : Z * Z) : bool :=
  if Z.eqb (fst p) (fst q) then Z.ltb (snd p) (snd q) else Z.ltb (fst p) (fst q).

(** A naive [datetime]: a date and a time of day. *)
Record datetime := Datetime {
  dt_date : date; hour : Z; minute : Z; second : Z; microsecond : Z }.

Definition dt_year (t : datetime) : Z := year (dt_date t).

(** [d.isoformat()]. *)
Definition date_isoformat (d : date) : str :=
  zero_pad 4 (year d) ++ py "-" ++ zero_pad 2 (month d) ++ py "-" ++ zero_pad 2 (day d).

(** [t.isoformat()] for a naive [datetime]. *)
Definition datetime_isoformat (t : datetime) : str :=
  date_isoformat (dt_date t) ++ py "T" ++ zero_pad 2 (hour t) ++ py ":" ++
  zero_pad 2 (minute t) ++ py ":" ++ zero_pad 2 (second t) ++
  (if Z.eqb (microsecond t) 0 then [] else py "." ++ zero_pad 6 (microsecond t)).

(** ** Floats

    A Python [float] is an IEEE 754 binary64 number, here in the canonical
    form of [spec_float] (53-bit mantissa). *)

Definition float := spec_float.

Definition float_zero : float := S754_zero false.
(** [4.0 = 2^52 * 2^-50]. *)
Definition float_four : float := S754_finite false 4503599627370496 (-50).

(** [a <= b]; false when either is a NaN. *)
Definition float_le (a b : float) : bool := SFleb a b.

(** ** JSON text

    What [json.dumps(obj, indent=2)] writes for the values the standard
    encoder handles. *)

#[warnings="-register-all"]
Inductive json :=
| JNull
| JBool (b : bool)
| JInt (z : Z)
| JFloat (f : float)
| JStr (s : str)
| JArr (items : list json)
| JObj (entries : list (str * json)).

Local Open Scope N_scope.

Definition hex_digit (n : N) : N :=
  if N.ltb n 10 then 48 + n else 87 + n.

(** [f"\\u{n:04x}"]. *)
Definition u_escape (n : N) : str :=
  py "\u" ++ [hex_digit (n / 4096 mod 16); hex_digit (n / 256 mod 16);
              hex_digit (n / 16 mod 16); hex_digit (n mod 16)].

(** The escape of one character with [ensure_ascii]: printable ASCII stays,
    the rest is escaped, above the basic plane as a surrogate pair. *)
Definition escape_char (c : N) : str :=
  if N.eqb c 34 then py "\" ++ [34]
  else if N.eqb c 92 then py "\\"
  else if N.eqb c 10 then py "\n"
  else if N.eqb c 13 then py "\r"
  else if N.eqb c 9 then py "\t"
  else if N.eqb c 8 then py "\b"
  else if N.eqb c 12 then py "\f"
  else if N.leb 32 c && N.leb c 126 then [c]
  else if N.ltb c 65536 then u_escape c
  else let n := c - 65536 in
       u_escape (55296 + (n / 1024) mod 1024) ++ u_escape (56320 + n mod 1024).

Definition encode_str (s : str) : str :=
  [34] ++ flat_map escape_char s ++ [34].

Fixpoint join (sep : str) (parts : list str) : str :=
  match parts with
  | [] => []
  | [p] => p
  | p :: rest => p ++ sep ++ join sep rest
  end.

(** A line break followed by the indentation of nesting depth [level]. *)
Definition newline_indent (level : nat) : str := 10 :: repeat 32 (2 * level)%nat.

Local Close Scope N_scope.

(** The number a [float] is written as; [repr] gives the digits of a finite
    one. *)
Definition encode_float (repr : float -> str) (f : float) : str :=
  match f with
  | S754_nan => py "NaN"
  | S754_infinity false => py "Infinity"
  | S754_infinity true => py "-Infinity"
  | _ => repr f
  end.

Fixpoint dumps (repr : float -> str) (level : nat) (j : json) : str :=
  match j with
  | JNull => py "null"
  | JBool true => py "true"
  | JBool false => py "false"
  | JInt z => str_of_Z z
  | JFloat f => encode_float repr f
  | JStr s => encode_str s
  | JArr [] => py "[]"
  | JArr items =>
      py "[" ++ newline_indent (S level)
      ++ join (py "," ++ newline_indent (S level)) (map (dumps repr (S level)) items)
      ++ newline_indent level ++ py "]"
  | JObj [] => py "{}"
  | JObj entries =>
      py "{" ++ newline_indent (S level)
      ++ join (py "," ++ newline_indent (S level))
              (map (fun kv => encode_str (fst kv) ++ py ": " ++ dumps repr (S level) (snd kv))
                   entries)
      ++ newline_indent level ++ py "}"
  end.

End Py.

(* ===================================================================== *)
(** * The pydantic machinery                                               *)
(* ===================================================================== *)

Module Pydantic.
Import Py.

(** ** Values, dictionaries, outcomes *)

(** The Python values that reach the records of [main.py]. A [VEnum] is a
    member of a [str]-valued [Enum] class; a [VSet] lists its elements in
    iteration order; a [VModel] is an instance of a [BaseModel] subclass with
    its [__dict__]. *)
#[warnings="-register-all"]
Inductive value :=
| VNone
| VBool (b : bool)
| VInt (z : Z)
| VFloat (f : float)
| VStr (s : str)
| VDate (d : date)
| VDatetime (t : datetime)
| VEnum (cls : string) (member : string) (v : str)
| VSecretStr (secret : str)
| VUrl (url : str)
| VList (items : list value)
| VSet (items : list value)
| VDict (entries : list (str * value))
| VModel (cls : string) (d : list (string * value)).

(** A [dict] with [str] keys that are identifiers: keyword arguments, the
    [values] handed to validators, an instance's [__dict__]. Entries are in
    insertion order. *)
Definition dict := list (string * value).

Fixpoint dict_get (d : dict) (k : string) : option value :=
  match d with
  | [] => None
  | (k', v) :: d' => if String.eqb k' k then Some v else dict_get d' k
  end.

(** [k in d]. *)
Definition dict_in (d : dict) (k : string) : bool :=
  match dict_get d k with Some _ => true | None => false end.

(** [d.get(k)]: [None] when the key is absent. *)
Definition dict_get_or_none (d : dict) (k : string) : value :=
  match dict_get d k with Some v => v | None => VNone end.

(** [d[k] = v]: an existing key keeps its position, a new one goes last. *)
Fixpoint dict_set (d : dict) (k : string) (v : value) : dict :=
  match d with
  | [] => [(k, v)]
  | (k', v') :: d' =>
      if String.eqb k' k then (k', v) :: d' else (k', v') :: dict_set d' k v
  end.


Definition dict_keys (d : dict) : list string := map fst d.

(** [bool(v)]. *)
Definition truthy (v : value) : bool :=
  match v with
  | VNone => false
  | VBool b => b
  | VInt z => negb (Z.eqb z 0)
  | VFloat f => match f with S754_zero _ => false | _ => true end
  | VStr s | VSecretStr s | VUrl s | VEnum _ _ s => str_truthy s
  | VDate _ | VDatetime _ | VModel _ _ => true
  | VList l | VSet l => match l with [] => false | _ => true end
  | VDict l => match l with [] => false | _ => true end
  end.

(** A call either returns or raises. *)
Inductive result (A E : Type) :=
| Ok (a : A)
| Err (e : E).
Arguments Ok {A E} a.
Arguments Err {A E} e.

(** The annotations of the fields of [main.py]. [TDict t] is [Dict[str, t]]. *)
Inductive ftype :=
| TStr (max_length : option nat)
| TInt (ge le : option Z)
| TFloat (ge le : option float)
| TBool
| TDate
| TDatetime
| TEnum (cls : string) (members : list (string * str))
| TEmailStr
| TSecretStr
| TAnyUrl
| TList (t : ftype)
| TSet (t : ftype)
| TDict (t : ftype)
| TModel (cls : string).

(** What a failed validation reports. [WrongType t] stands for pydantic's
    [StrError], [IntegerError], ... ; [ValueError] and [TypeError] are the
    exceptions validator functions of a model raise. *)
Inductive error :=
| MissingError
| ExtraError
| NoneIsNotAllowedError
| WrongType (t : ftype)
| NumberNotGeError
| NumberNotLeError
| AnyStrMaxLengthError (limit : nat)
| EnumMemberError
| EmailError
| UrlError
| ValueError (msg : string)
| TypeError (msg : string).

(** The message of the [TypeError] or [AttributeError] of an operation
    applied to a value of the wrong class. *)
Definition wrong_class : string := "unsupported operand".

Inductive loc_item :=
| LName (name : string)
| LIndex (i : nat)
| LKey (k : str).

(** The entries of a [ValidationError]: where, and what. *)
Definition errors := list (list loc_item * error).

Definition ROOT_KEY : string := "__root__".

(** ** The environment of a run

    What a construction reads from outside the two scripts. *)
Record Env := {
  (** [date.today()] *)
  today : date;
  (** [datetime.now()] *)
  now : datetime;
  (** pydantic's conversion of a value that is not an instance of the
      annotated type (a number given for a [str], a [dict] given for a
      model, ...), [None] when there is none *)
  coerce : ftype -> value -> option value;
  (** the [email-validator] package behind [EmailStr]: the normalised address *)
  validate_email : str -> option str;
  (** [AnyUrl]'s parser *)
  validate_url : str -> option str;
  (** the elements of [set(items)] in iteration order *)
  set_order : list value -> list value;
  (** [repr] of a [float] *)
  float_repr : float -> str;
  (** [str(v)] of a value that is not a [str] *)
  str_other : value -> str;
}.

(** What an f-string writes for [{v}]. *)
Definition format (env : Env) (v : value) : str :=
  match v with
  | VStr s => s
  | _ => str_other env v
  end.

(** ** Validation by annotated type *)

Definition prefix_loc (l : loc_item) (es : errors) : errors :=
  map (fun e => (l :: fst e, snd e)) es.

Definition fail {A} (e : error) : result A errors := Err [([], e)].

(** [str_validator], [int_validator], ...: an instance of the annotated type
    is returned as it is; any other value goes through [coerce]. *)
Definition str_validator (env : Env) (v : value) : result str errors :=
  match v with
  | VStr s => Ok s
  | _ => match coerce env (TStr None) v with
         | Some (VStr s) => Ok s
         | _ => fail (WrongType (TStr None))
         end
  end.

Definition int_validator (env : Env) (v : value) : result Z errors :=
  match v with
  | VInt z => Ok z
  | _ => match coerce env (TInt None None) v with
         | Some (VInt z) => Ok z
         | _ => fail (WrongType (TInt None None))
         end
  end.

Definition float_validator (env : Env) (v : value) : result float errors :=
  match v with
  | VFloat f => Ok f
  | _ => match coerce env (TFloat None None) v with
         | Some (VFloat f) => Ok f
         | _ => fail (WrongType (TFloat None None))
         end
  end.

(** For a type whose instances are one constructor of [value]. *)
Definition instance_or_coerce (env : Env) (t : ftype) (is_instance : value -> bool)
    (v : value) : result value errors :=
  if is_instance v then Ok v
  else match coerce env t v with
       | Some v' => if is_instance v' then Ok v' else fail (WrongType t)
       | None => fail (WrongType t)
       end.

(** [number_size_validator] for the bounds [ge] and [le]. *)
Definition int_size_validator (ge le : option Z) (z : Z) : result value errors :=
  if match ge with Some b => negb (Z.geb z b) | None => false end
  then fail NumberNotGeError
  else if match le with Some b => negb (Z.leb z b) | None => false end
  then fail NumberNotLeError
  else Ok (VInt z).

Definition float_size_validator (ge le : option float) (f : float) : result value errors :=
  if match ge with Some b => negb (float_le b f) | None => false end
  then fail NumberNotGeError
  else if match le with Some b => negb (float_le f b) | None => false end
  then fail NumberNotLeError
  else Ok (VFloat f).

(** [anystr_length_validator] with only [max_length] set. *)
Definition anystr_length_validator (max_length : option nat) (s : str) : result value errors :=
  match max_length with
  | Some n => if Nat.ltb n (List.length s) then fail (AnyStrMaxLengthError n) else Ok (VStr s)
  | None => Ok (VStr s)
  end.

(** [Enum(v)]: the member whose value equals [v]. *)
Fixpoint enum_lookup (cls : string) (members : list (string * str)) (s : str) : result value errors :=
  match members with
  | [] => fail EnumMemberError
  | (m, s') :: rest => if str_eqb s' s then Ok (VEnum cls m s') else enum_lookup cls rest s
  end.

(** The items of a sequence, each validated; every failure is reported
    under its index. *)
Fixpoint validate_items (f : value -> result value errors) (i : nat) (l : list value)
    : list value * errors :=
  match l with
  | [] => ([], [])
  | v :: l' =>
      let (rs, es) := validate_items f (S i) l' in
      match f v with
      | Ok r => (r :: rs, es)
      | Err e => (rs, prefix_loc (LIndex i) e ++ es)
      end
  end.

Fixpoint validate_entries (f : value -> result value errors) (l : list (str * value))
    : list (str * value) * errors :=
  match l with
  | [] => ([], [])
  | (k, v) :: l' =>
      let (rs, es) := validate_entries f l' in
      match f v with
      | Ok r => ((k, r) :: rs, es)
      | Err e => (rs, prefix_loc (LKey k) e ++ es)
      end
  end.

Definition is_date v := match v with VDate _ => true | _ => false end.
Definition is_datetime v := match v with VDatetime _ => true | _ => false end.
Definition is_bool v := match v with VBool _ => true | _ => false end.
Definition is_instance_of (cls : string) v :=
  match v with VModel c _ => String.eqb c cls | _ => false end.

(** The validators pydantic derives from an annotation, applied in order. *)
Fixpoint validate_type (env : Env) (t : ftype) (v : value) : result value errors :=
  match t with
  | TStr max_length =>
      match str_validator env v with
      | Ok s => anystr_length_validator max_length s
      | Err e => Err e
      end
  | TInt ge le =>
      match int_validator env v with
      | Ok z => int_size_validator ge le z
      | Err e => Err e
      end
  | TFloat ge le =>
      match float_validator env v with
      | Ok f => float_size_validator ge le f
      | Err e => Err e
      end
  | TBool => instance_or_coerce env t is_bool v
  | TDate => instance_or_coerce env t is_date v
  | TDatetime => instance_or_coerce env t is_datetime v
  | TEnum cls members =>
      match v with
      | VStr s | VUrl s | VEnum _ _ s => enum_lookup cls members s
      | _ => fail EnumMemberError
      end
  | TEmailStr =>
      match str_validator env v with
      | Ok s => match validate_email env s with
                | Some e => Ok (VStr e)
                | None => fail EmailError
                end
      | Err e => Err e
      end
  | TSecretStr =>
      match v with
      | VSecretStr s => Ok (VSecretStr s)
      | _ => match str_validator env v with
             | Ok s => Ok (VSecretStr s)
             | Err e => Err e
             end
      end
  | TAnyUrl =>
      match v with
      | VUrl u => Ok (VUrl u)
      | _ => match str_validator env v with
             | Ok s => match validate_url env s with
                       | Some u => Ok (VUrl u)
                       | None => fail UrlError
                       end
             | Err e => Err e
             end
      end
  | TList t' =>
      match v with
      | VList l | VSet l =>
          match validate_items (validate_type env t') 0 l with
          | (rs, []) => Ok (VList rs)
          | (_, es) => Err es
          end
      | _ => fail (WrongType t)
      end
  | TSet t' =>
      match v with
      | VList l | VSet l =>
          match validate_items (validate_type env t') 0 l with
          | (rs, []) => Ok (VSet (set_order env rs))
          | (_, es) => Err es
          end
      | _ => fail (WrongType t)
      end
  | TDict t' =>
      match (match v with VDict _ => Some v | _ => coerce env t v end) with
      | Some (VDict l) =>
          match validate_entries (validate_type env t') l with
          | (rs, []) => Ok (VDict rs)
          | (_, es) => Err es
          end
      | _ => fail (WrongType t)
      end
  | TModel cls => instance_or_coerce env t (is_instance_of cls) v
  end.

(** ** Fields and model classes *)

(** A function decorated with [@validator(field, always=...)]: it is called
    with the value and the [values] validated so far, and returns or raises. *)
Record class_validator := {
  always : bool;
  func : Env -> value -> dict -> result value error;
}.

(** One annotated attribute of a model class. [allow_none] is [Optional[...]];
    [required] holds when the declaration has no default. *)
Record ModelField := {
  name : string;
  type_ : ftype;
  allow_none : bool;
  required : bool;
  get_default : Env -> value;
  class_validators : list class_validator;
}.

Definition validate_always (f : ModelField) : bool :=
  existsb always (class_validators f).

Inductive Extra := Ignore | Allow | Forbid.

(** The settings of [class Config] the models use, with pydantic's defaults
    in [BaseConfig]. *)
Record Config := {
  extra : Extra;
  validate_assignment : bool;
  allow_mutation : bool;
}.

Definition BaseConfig : Config :=
  {| extra := Ignore; validate_assignment := false; allow_mutation := true |}.

(** A subclass of [BaseModel]: its fields in declaration order, its
    [@root_validator] functions, its configuration. *)
Record ModelClass := {
  cls_name : string;
  fields : list ModelField;
  root_validators : list (Env -> dict -> result dict error);
  config : Config;
}.

Definition field_names (cls : ModelClass) : list string := map name (fields cls).



(** The fields before the one named [k], that field, and those after it. *)
Fixpoint split_field (fs : list ModelField) (k : string)
    : option (list ModelField * ModelField * list ModelField) :=
  match fs with
  | [] => None
  | f :: fs' =>
      if String.eqb (name f) k then Some ([], f, fs')
      else match split_field fs' k with
           | Some (pre, g, post) => Some (f :: pre, g, post)
           | None => None
           end
  end.

(** ** [ModelField.validate] *)

(** [_apply_validators]: the class validators in order; the first that
    raises ends the field's validation. *)
Fixpoint apply_validators (env : Env) (vs : list class_validator) (v : value)
    (values : dict) : result value error :=
  match vs with
  | [] => Ok v
  | cv :: vs' =>
      match func cv env v values with
      | Ok v' => apply_validators env vs' v' values
      | Err e => Err e
      end
  end.

Definition at_field (f : ModelField) (r : result value error) : result value errors :=
  match r with
  | Ok v => Ok v
  | Err e => Err [([LName (name f)], e)]
  end.

Definition field_validate (env : Env) (f : ModelField) (v : value) (values : dict)
    : result value errors :=
  match v with
  | VNone =>
      if allow_none f
      then at_field f (apply_validators env (class_validators f) VNone values)
      else Err [([LName (name f)], NoneIsNotAllowedError)]
  | _ =>
      match validate_type env (type_ f) v with
      | Ok v' => at_field f (apply_validators env (class_validators f) v' values)
      | Err es => Err (prefix_loc (LName (name f)) es)
      end
  end.

(** ** [validate_model] *)

Record vstate := {
  values : dict;
  errs : errors;
  names_used : list string;
}.

Definition validated (env : Env) (f : ModelField) (v : value) (st : vstate)
    (used : list string) : vstate :=
  match field_validate env f v (values st) with
  | Ok v' => {| values := dict_set (values st) (name f) v'; errs := errs st;
                names_used := used |}
  | Err es => {| values := values st; errs := errs st ++ es; names_used := used |}
  end.

(** The body of the loop over [model.__fields__]. *)
Definition validate_field (env : Env) (input_data : dict) (st : vstate)
    (f : ModelField) : vstate :=
  match dict_get input_data (name f) with
  | None =>
      if required f
      then {| values := values st;
              errs := errs st ++ [([LName (name f)], MissingError)];
              names_used := names_used st |}
      else
        let value := get_default f env in
        if validate_always f
        then validated env f value st (names_used st)
        else {| values := dict_set (values st) (name f) value; errs := errs st;
                names_used := names_used st |}
  | Some value => validated env f value st (name f :: names_used st)
  end.

Definition validate_fields (env : Env) (fs : list ModelField) (input_data : dict)
    (st : vstate) : vstate :=
  fold_left (validate_field env input_data) fs st.

Fixpoint insert_sorted (k : string) (l : list string) : list string :=
  match l with
  | [] => [k]
  | k' :: l' => if String.leb k k' then k :: l else k' :: insert_sorted k l'
  end.

(** [sorted(keys)]. *)
Definition sorted (l : list string) : list string := fold_right insert_sorted [] l.

(** [input_data.keys() - names_used]. *)
Definition extra_keys (input_data : dict) (used : list string) : list string :=
  filter (fun k => negb (existsb (String.eqb k) used)) (dict_keys input_data).

Definition check_extra (cfg : Config) (input_data : dict) (st : vstate) : vstate :=
  match extra cfg with
  | Ignore => st
  | Allow =>
      {| values := fold_left (fun d k => dict_set d k (dict_get_or_none input_data k))
                             (extra_keys input_data (names_used st)) (values st);
         errs := errs st; names_used := names_used st |}
  | Forbid =>
      {| values := values st;
         errs := errs st ++ map (fun k => ([LName k], ExtraError))
                                (sorted (extra_keys input_data (names_used st)));
         names_used := names_used st |}
  end.

(** The root validators run whether or not a field failed; each receives
    the values that were validated. *)
Definition run_root_validator (env : Env) (acc : dict * errors)
    (rv : Env -> dict -> result dict error) : dict * errors :=
  match rv env (fst acc) with
  | Ok values' => (values', snd acc)
  | Err e => (fst acc, snd acc ++ [([LName ROOT_KEY], e)])
  end.

Definition run_root_validators (env : Env) (cls : ModelClass) (acc : dict * errors)
    : dict * errors :=
  fold_left (run_root_validator env) (root_validators cls) acc.

Definition validate_model (env : Env) (cls : ModelClass) (input_data : dict)
    : dict * errors :=
  let st := validate_fields env (fields cls) input_data
              {| values := []; errs := []; names_used := [] |} in
  let st := check_extra (config cls) input_data st in
  run_root_validators env cls (values st, errs st).

(** Instantiating [cls] with the keyword arguments [data]: the instance, or
    the [ValidationError] raised. *)
Definition construct (env : Env) (cls : ModelClass) (data : dict) : result value errors :=
  match validate_model env cls data with
  | (values, []) => Ok (VModel (cls_name cls) values)
  | (_, es) => Err es
  end.

(** ** [BaseModel.__setattr__] *)



(** ** [BaseModel.json] *)

Definition mask : str := py "**********".

(** [str(secret)] for a [SecretStr]: a fixed mask, or nothing for the empty
    secret. *)
Definition secret_str (secret : str) : str :=
  if str_truthy secret then mask else [].

(** The value [json.dumps] sees: [dict(self._iter(to_dict=True))], with
    [pydantic_encoder] applied where the standard encoder has no rule
    (dates by [isoformat], sets as lists, secrets by [str]). *)
Fixpoint to_jsonable (v : value) : json :=
  match v with
  | VNone => JNull
  | VBool b => JBool b
  | VInt z => JInt z
  | VFloat f => JFloat f
  | VStr s | VUrl s | VEnum _ _ s => JStr s
  | VDate d => JStr (date_isoformat d)
  | VDatetime t => JStr (datetime_isoformat t)
  | VSecretStr secret => JStr (secret_str secret)
  | VList l | VSet l => JArr (map to_jsonable l)
  | VDict l => JObj (map (fun kv => (fst kv, to_jsonable (snd kv))) l)
  | VModel _ d => JObj (map (fun kv => (py (fst kv), to_jsonable (snd kv))) d)
  end.

(** [obj.json(indent=2)]. *)
Definition json_text (env : Env) (obj : value) : str :=
  dumps (float_repr env) 0 (to_jsonable obj).

End Pydantic.

(* ===================================================================== *)
(** * main.py: the record schemas                                          *)
(* ===================================================================== *)

Module Main.
Import Py Pydantic.
Local Open Scope string_scope.
Local Open Scope Z_scope.
Local Open Scope list_scope.

(** A field declared without a default. *)
Definition required_field (n : string) (t : ftype) : ModelField :=
  {| name := n; type_ := t; allow_none := false; required := true;
     get_default := fun _ => VNone; class_validators := [] |}.

(** A field declared with a default that is not [None]. *)
Definition default_field (n : string) (t : ftype) (default : value) : ModelField :=
  {| name := n; type_ := t; allow_none := false; required := false;
     get_default := fun _ => default; class_validators := [] |}.

(** A field declared [Optional[t] = None]. *)
Definition optional_field (n : string) (t : ftype) (vs : list class_validator) : ModelField :=
  {| name := n; type_ := t; allow_none := true; required := false;
     get_default := fun _ => VNone; class_validators := vs |}.

(** [class Gender(str, Enum)]. *)
Definition Gender_members : list (string * str) :=
  [ ("MALE", py "male"); ("FEMALE", py "female"); ("OTHER", py "other") ].

Definition Gender : ftype := TEnum "Gender" Gender_members.

Definition MALE : value := VEnum "Gender" "MALE" (py "male").
Definition FEMALE : value := VEnum "Gender" "FEMALE" (py "female").
Definition OTHER : value := VEnum "Gender" "OTHER" (py "other").

(** [class Subject(BaseModel)]. *)
Definition Subject : ModelClass :=
  {| cls_name := "Subject";
     fields := [ required_field "name" (TStr None);
                 required_field "code" (TStr None);
                 required_field "credits" (TInt (Some 1) (Some 6)) ];
     root_validators := [];
     config := BaseConfig |}.

(** [class Address(BaseModel)]. *)
Definition Address : ModelClass :=
  {| cls_name := "Address";
     fields := [ required_field "street" (TStr None);
                 required_field "city" (TStr None);
                 required_field "state" (TStr None);
                 required_field "zip_code" (TStr None);
                 default_field "country" (TStr None) (VStr (py "USA")) ];
     root_validators := [];
     config := BaseConfig |}.

(** [EmergencyContact.validate_phone]. The value is the [str] the field's
    type validation produced. *)
Definition validate_phone (_ : Env) (v : value) (_ : dict) : result value error :=
  match v with
  | VStr s =>
      if negb (isdigit (replace1 hyphen [] s))
      then Err (ValueError "Phone must contain only digits and hyphens")
      else Ok v
  | _ => Err (TypeError wrong_class)
  end.

(** [class EmergencyContact(BaseModel)]. *)
Definition EmergencyContact : ModelClass :=
  {| cls_name := "EmergencyContact";
     fields := [ required_field "name" (TStr None);
                 required_field "relationship" (TStr None);
                 {| name := "phone"; type_ := TStr None; allow_none := false;
                    required := true; get_default := fun _ => VNone;
                    class_validators := [ {| always := false; func := validate_phone |} ] |} ];
     root_validators := [];
     config := BaseConfig |}.

(** [Student.set_full_name]. *)
Definition set_full_name (env : Env) (v : value) (values : dict) : result value error :=
  if truthy v then Ok v
  else if dict_in values "first_name" && dict_in values "last_name"
  then Ok (VStr (format env (dict_get_or_none values "first_name") ++ py " "
                 ++ format env (dict_get_or_none values "last_name")))
  else Ok v.

(** [Student.calculate_age]. *)
Definition calculate_age (env : Env) (v : value) (values : dict) : result value error :=
  match v with
  | VNone =>
      match dict_get values "date_of_birth" with
      | Some (VDate dob) =>
          let today := today env in
          Ok (VInt (year today - year dob
                    - (if pair_lt (month today, day today) (month dob, day dob)
                       then 1 else 0)))
      | Some _ => Err (TypeError wrong_class)
      | None => Ok VNone
      end
  | _ => Ok v
  end.

(** [Student.check_graduation_year]. *)
Definition check_graduation_year (_ : Env) (values : dict) : result dict error :=
  if truthy (dict_get_or_none values "graduation_year")
     && truthy (dict_get_or_none values "enrollment_date")
  then
    match dict_get_or_none values "graduation_year",
          dict_get_or_none values "enrollment_date" with
    | VInt g, VDatetime t =>
        if Z.ltb g (dt_year t)
        then Err (ValueError "Graduation year cannot be before enrollment year")
        else Ok values
    | _, _ => Err (TypeError wrong_class)
    end
  else Ok values.

(** [class Student(BaseModel)], with its [class Config]. *)
Definition Student : ModelClass :=
  {| cls_name := "Student";
     fields :=
       [ required_field "id" (TInt None None);
         required_field "first_name" (TStr None);
         required_field "last_name" (TStr None);
         optional_field "full_name" (TStr None)
           [ {| always := true; func := set_full_name |} ];
         required_field "email" TEmailStr;
         required_field "password" TSecretStr;
         required_field "date_of_birth" TDate;
         optional_field "age" (TInt None None)
           [ {| always := true; func := calculate_age |} ];
         required_field "gender" Gender;
         default_field "active" TBool (VBool true);
         default_field "gpa" (TFloat (Some float_zero) (Some float_four)) (VFloat float_zero);
         default_field "subjects" (TList (TModel "Subject")) (VList []);
         default_field "favorite_subjects" (TSet (TStr None)) (VSet []);
         default_field "grades" (TDict (TFloat None None)) (VDict []);
         required_field "address" (TModel "Address");
         optional_field "phone" (TStr None) [];
         optional_field "website" TAnyUrl [];
         default_field "emergency_contacts" (TList (TModel "EmergencyContact")) (VList []);
         {| name := "enrollment_date"; type_ := TDatetime; allow_none := false;
            required := false; get_default := fun env => VDatetime (now env);
            class_validators := [] |};
         optional_field "graduation_year" (TInt None None) [];
         optional_field "notes" (TStr (Some 1000%nat)) [];
         default_field "tags" (TList (TStr None)) (VList []) ];
     root_validators := [ check_graduation_year ];
     config := {| extra := Forbid; validate_assignment := true; allow_mutation := true |} |}.

(** ** The script *)

Definition bind {A B E} (r : result A E) (k : A -> result B E) : result B E :=
  match r with
  | Ok a => k a
  | Err e => Err e
  end.

Notation "x <- r ;; k" := (bind r (fun x => k))
  (at level 61, r at next level, right associativity).

(** The keyword arguments of the call that creates [student], given the
    nested instances. *)
Definition student_data (cs maths address contact : value) : dict :=
  [ ("id", VInt 1001);
    ("first_name", VStr (py "Jane"));
    ("last_name", VStr (py "Smith"));
    ("email", VStr (py "jane.smith@university.edu"));
    ("password", VStr (py "SecurePassword123"));
    ("date_of_birth", VDate (Date 2000 5 15));
    ("gender", FEMALE);
    ("gpa", VFloat (S754_finite false 8556839292003942 (-51)));
    ("subjects", VList [cs; maths]);
    ("favorite_subjects", VSet [VStr (py "Computer Science"); VStr (py "Physics")]);
    ("grades", VDict [ (py "CS101", VFloat (S754_finite false 6720215068966912 (-46)));
                       (py "MATH201", VFloat (S754_finite false 6192449487634432 (-46))) ]);
    ("address", address);
    ("phone", VStr (py "555-123-4567"));
    ("website", VStr (py "https://jane-smith.portfolio.dev"));
    ("emergency_contacts", VList [contact]);
    ("graduation_year", VInt 2024);
    ("tags", VList [VStr (py "honors"); VStr (py "scholarship")]) ].

(** Lines 126 to 158: the instance bound to [student]. *)
Definition student (env : Env) : result value errors :=
  cs <- construct env Subject
          [ ("name", VStr (py "Computer Science")); ("code", VStr (py "CS101"));
            ("credits", VInt 4) ] ;;
  maths <- construct env Subject
          [ ("name", VStr (py "Mathematics")); ("code", VStr (py "MATH201"));
            ("credits", VInt 3) ] ;;
  address <- construct env Address
          [ ("street", VStr (py "456 University Ave")); ("city", VStr (py "College Town"));
            ("state", VStr (py "NY")); ("zip_code", VStr (py "54321")) ] ;;
  contact <- construct env EmergencyContact
          [ ("name", VStr (py "Robert Smith")); ("relationship", VStr (py "Father"));
            ("phone", VStr (py "555-987-6543")) ] ;;
  construct env Student (student_data cs maths address contact).

(** Line 161: what the script prints, without the final line break. *)
Definition main (env : Env) : result str errors :=
  s <- student env ;; Ok (json_text env s).

End Main.

(* ===================================================================== *)
(** * args_kwargs.py: the variadic demo                                    *)
(* ===================================================================== *)

Module ArgsKwargs.
Import Py.
Local Open Scope string_scope.
Local Open Scope list_scope.

Section Demo.

(** The objects passed around, and what an f-string writes for one. *)
Variable object : Type.
Variable format : object -> str.

(** [print(s)] on the text written so far. *)
Definition print (out : str) (s : str) : str := out ++ s ++ [10%N].

(** [for i, arg in enumerate(args): print(...)], counting from [i]. *)
Fixpoint print_args (i : nat) (args : list object) (out : str) : str :=
  match args with
  | [] => out
  | arg :: rest =>
      print_args (S i) rest
        (print out (py "  Argument " ++ str_of_Z (Z.of_nat i) ++ py ": " ++ format arg))
  end.

(** [for key, value in kwargs.items(): print(...)]. *)
Fixpoint print_kwargs (items : list (str * object)) (out : str) : str :=
  match items with
  | [] => out
  | (key, value) :: rest =>
      print_kwargs rest (print out (py "  " ++ key ++ py ": " ++ format value))
  end.

(** [demo_function], given the tuple [args] and the dict [kwargs] (its items
    in insertion order) it was called with: the text on standard output
    after the call. *)
Definition demo_function (args : list object) (kwargs : list (str * object))
    (out : str) : str :=
  let out := print out (py "Positional arguments (" ++ py "*args) received:") in
  let out := print_args 0 args out in
  let out := print out ([10%N] ++ py "Keyword arguments (" ++ py "**kwargs) received:") in
  print_kwargs kwargs out.

(** ** Calls

    The arguments of a call, left to right: a value, a starred sequence, a
    named value, a double-starred mapping. *)
Inductive argument :=
| Positional (v : object)
| Starred (seq : list object)
| Keyword (k : str) (v : object)
| DoubleStarred (m : list (str * object)).

Definition has_key (kwargs : list (str * object)) (k : str) : bool :=
  existsb (fun kv => str_eqb (fst kv) k) kwargs.

(** One more named value; a name that was already given is a [TypeError]. *)
Definition add_keyword (kwargs : list (str * object)) (k : str) (v : object)
    : option (list (str * object)) :=
  if has_key kwargs k then None else Some (kwargs ++ [(k, v)]).

Fixpoint add_mapping (kwargs : list (str * object)) (m : list (str * object))
    : option (list (str * object)) :=
  match m with
  | [] => Some kwargs
  | (k, v) :: rest =>
      match add_keyword kwargs k v with
      | Some kwargs' => add_mapping kwargs' rest
      | None => None
      end
  end.

(** What a function declared with the parameters of [demo_function]
    receives: every unnamed value in [args], every named value in [kwargs]. *)
Fixpoint bind_arguments (call : list argument) (args : list object)
    (kwargs : list (str * object)) : option (list object * list (str * object)) :=
  match call with
  | [] => Some (args, kwargs)
  | Positional v :: rest => bind_arguments rest (args ++ [v]) kwargs
  | Starred seq :: rest => bind_arguments rest (args ++ seq) kwargs
  | Keyword k v :: rest =>
      match add_keyword kwargs k v with
      | Some kwargs' => bind_arguments rest args kwargs'
      | None => None
      end
  | DoubleStarred m :: rest =>
      match add_mapping kwargs m with
      | Some kwargs' => bind_arguments rest args kwargs'
      | None => None
      end
  end.

(** A call of [demo_function]: the output after it, or [None] when the
    call raises. *)
Definition call_demo_function (call : list argument) (out : str) : option str :=
  match bind_arguments call [] [] with
  | Some (args, kwargs) => Some (demo_function args kwargs out)
  | None => None
  end.

(** The call with a sequence and a mapping spread into it. *)
Definition call_unpacked (s : list object) (m : list (str * object)) : list argument :=
  [Starred s; DoubleStarred m].

(** The call with the same elements and entries written out one by one. *)
Definition call_individually (s : list object) (m : list (str * object)) : list argument :=
  map Positional s ++ map (fun kv => Keyword (fst kv) (snd kv)) m.

End Demo.

(** ** The script *)

(** The objects of the script: texts and integers. *)
Inductive obj :=
| OStr (s : str)
| OInt (z : Z).

Definition obj_format (o : obj) : str :=
  match o with
  | OStr s => s
  | OInt z => str_of_Z z
  end.

Definition lst : list obj := [OStr (py "apple"); OStr (py "banana"); OStr (py "cherry")].

Definition person_info : list (str * obj) :=
  [ (py "name", OStr (py "Alice")); (py "age", OInt 30); (py "city", OStr (py "New York")) ].

(** Lines 32 to 40. *)
Definition script : option str :=
  match call_demo_function obj_format
          [ Positional (OInt 10); Positional (OInt 20); Positional (OInt 30);
            Keyword (py "fruit") (OStr (py "apple")); Keyword (py "color") (OStr (py "red")) ]
          [] with
  | Some out =>
      call_demo_function obj_format (call_unpacked lst person_info)
        (print out ([10%N] ++ py "---" ++ [10%N]))
  | None => None
  end.

End ArgsKwargs.

(* ===================================================================== *)
(** * Sample runs                                                          *)
(* ===================================================================== *)

Module Examples.
Import Py Pydantic Main.
Local Open Scope string_scope.
Local Open Scope Z_scope.
Local Open Scope list_scope.

(** An environment to run the definitions in: the day is [d], the clock
    reads 1 September 2021, nothing is coerced, an address needs an at sign,
    every URL is accepted, a set keeps the order of its elements. *)
Definition example_env (d : date) : Env :=
  {| today := d;
     now := Datetime (Date 2021 9 1) 9 0 0 0;
     coerce := fun _ _ => None;
     validate_email := fun s => if existsb (N.eqb 64) s then Some s else None;
     validate_url := fun s => Some s;
     set_order := fun l => l;
     float_repr := fun _ => py "0.0";
     str_other := fun _ => [] |}.

Definition nov_4_2026 : date := Date 2026 11 4.
Definition dec_31_2024 : date := Date 2024 12 31.

Definition home : value :=
  VModel "Address"
    [ ("street", VStr (py "456 University Ave")); ("city", VStr (py "College Town"));
      ("state", VStr (py "NY")); ("zip_code", VStr (py "54321"));
      ("country", VStr (py "USA")) ].

(** Keyword arguments for a [Student] born on [dob], with the given
    password and graduation year, who enrolls on 1 September 2021. *)
Definition jane_data (dob : date) (password : str) (graduation_year : value) : dict :=
  [ ("id", VInt 1001);
    ("first_name", VStr (py "Jane"));
    ("last_name", VStr (py "Smith"));
    ("email", VStr (py "jane.smith@university.edu"));
    ("password", VStr password);
    ("date_of_birth", VDate dob);
    ("gender", FEMALE);
    ("address", home);
    ("enrollment_date", VDatetime (Datetime (Date 2021 9 1) 9 0 0 0));
    ("graduation_year", graduation_year) ].

(** The [__dict__] of the [Student] made from [jane_data dob password
    (VInt 2024)] when it is [age] years after [dob]. *)
Definition jane (dob : date) (password : str) (age : Z) : dict :=
  [ ("id", VInt 1001);
    ("first_name", VStr (py "Jane"));
    ("last_name", VStr (py "Smith"));
    ("full_name", VStr (py "Jane Smith"));
    ("email", VStr (py "jane.smith@university.edu"));
    ("password", VSecretStr password);
    ("date_of_birth", VDate dob);
    ("age", VInt age);
    ("gender", FEMALE);
    ("active", VBool true);
    ("gpa", VFloat float_zero);
    ("subjects", VList []);
    ("favorite_subjects", VSet []);
    ("grades", VDict []);
    ("address", home);
    ("phone", VNone);
    ("website", VNone);
    ("emergency_contacts", VList []);
    ("enrollment_date", VDatetime (Datetime (Date 2021 9 1) 9 0 0 0));
    ("graduation_year", VInt 2024);
    ("notes", VNone);
    ("tags", VList []) ].






Definition contact_data (n r p : str) : dict :=
  [ ("name", VStr n); ("relationship", VStr r); ("phone", VStr p) ].

Definition subject_data (n c : str) (credits : Z) : dict :=
  [ ("name", VStr n); ("code", VStr c); ("credits", VInt credits) ].

End Examples.

(* ===================================================================== *)
(** * The vocabulary of the specification                                  *)
(* ===================================================================== *)

Module Spec.
Import Py Pydantic.
Local Open Scope string_scope.
Local Open Scope Z_scope.
Local Open Scope list_scope.

(** A construction or a call that returns. *)
Definition succeeds {A E} (r : result A E) : Prop := exists a, r = Ok a.

Definition is_hyphen (c : N) : bool := N.eqb c hyphen.

(** [p] contains only digit characters and hyphens. *)
Definition only_digits_and_hyphens (p : str) : bool :=
  forallb (fun c => isdigit_char c || is_hyphen c) p.

(** [p] contains a digit character. *)
Definition has_digit (p : str) : bool := existsb isdigit_char p.

(** The month and day of [dob] are those of the day after [today], in an
    earlier year. *)
Definition one_day_after_in_earlier_year (today dob : date) : Prop :=
  year dob < year today
  /\ month dob = month (next_day today)
  /\ day dob = day (next_day today).

(** What a successful construction settles for the field [f], given the
    values of the fields before it: the validated argument, or the default
    (validated when a validator of the field is declared [always]). *)
Definition field_outcome (env : Env) (data : dict) (f : ModelField)
    (before : dict) (v' : value) : Prop :=
  match dict_get data (name f) with
  | Some v => field_validate env f v before = Ok v'
  | None =>
      required f = false
      /\ if validate_always f
         then field_validate env f (get_default f env) before = Ok v'
         else v' = get_default f env
  end.

(** The age the specification calls whole years elapsed: the difference of
    the years, less one when the birthday of the year is still to come. *)
Definition whole_years (today dob : date) : Z :=
  year today - year dob
  - (if pair_lt (month today, day today) (month dob, day dob) then 1 else 0).

Definition is_dec_31 (d : date) : bool := Z.eqb (month d) 12 && Z.eqb (day d) 31.

(** The entry of a [ValidationError] for the cross-field rule. *)
Definition cross_field_error : list loc_item * error :=
  ([LName ROOT_KEY], ValueError "Graduation year cannot be before enrollment year").

(** Two instances that differ only in the [password] value, [p] in one and
    [q] in the other. *)
Definition differ_only_in_password (a b : value) (p q : str) : Prop :=
  exists cls d,
    a = VModel cls (dict_set d "password" (VSecretStr p))
    /\ b = VModel cls (dict_set d "password" (VSecretStr q)).

End Spec.

(* ===================================================================== *)
(** * Shapes of records and calls                                          *)
(* ===================================================================== *)

Module Shapes.
Import Py Pydantic Main ArgsKwargs.
Local Open Scope string_scope.
Local Open Scope Z_scope.
Local Open Scope list_scope.

(** The [__dict__] of an [Address]. *)
Definition address_data (street city state zip_code country : str) : dict :=
  [ ("street", VStr street); ("city", VStr city); ("state", VStr state);
    ("zip_code", VStr zip_code); ("country", VStr country) ].

(** The four model classes of [main.py]. *)
Definition model_classes : list ModelClass :=
  [Subject; Address; EmergencyContact; Student].


Section Calls.

Variable object : Type.
Variable format : object -> str.

(** The unnamed values of a call, starred sequences spread, left to right. *)
Fixpoint positional_values (call : list (argument object)) : list object :=
  match call with
  | [] => []
  | Positional v :: rest => v :: positional_values rest
  | Starred seq :: rest => seq ++ positional_values rest
  | _ :: rest => positional_values rest
  end.

(** The named values of a call, double-starred mappings spread, left to
    right. *)
Fixpoint keyword_entries (call : list (argument object)) : list (str * object) :=
  match call with
  | [] => []
  | Keyword k v :: rest => (k, v) :: keyword_entries rest
  | DoubleStarred m :: rest => m ++ keyword_entries rest
  | _ :: rest => keyword_entries rest
  end.

(** The line [demo_function] prints for the unnamed value at index [i]. *)
Definition argument_line (i : nat) (arg : object) : str :=
  py "  Argument " ++ str_of_Z (Z.of_nat i) ++ py ": " ++ format arg ++ [10%N].

(** The line [demo_function] prints for a named value. *)
Definition keyword_line (kv : str * object) : str :=
  py "  " ++ fst kv ++ py ": " ++ format (snd kv) ++ [10%N].

(** The lines for the values [args], the first at index [i]. *)
Fixpoint argument_lines (i : nat) (args : list object) : str :=
  match args with
  | [] => []
  | arg :: rest => argument_line i arg ++ argument_lines (S i) rest
  end.

Definition positional_header : str :=
  py "Positional arguments (" ++ py "*args) received:" ++ [10%N].

Definition keyword_header : str :=
  [10%N] ++ py "Keyword arguments (" ++ py "**kwargs) received:" ++ [10%N].

End Calls.

End Shapes.

(* ===================================================================== *)
(** * Properties of the variadic demo                                      *)
(* ===================================================================== *)

Module ArgsKwargsSpec.
Import Py ArgsKwargs.

Lemma str_eqb_eq a b : str_eqb a b = true <-> a = b.
Proof.
  unfold str_eqb. destruct (list_eq_dec N.eq_dec a b); split; congruence.
Qed.

Section Calls.

Variable object : Type.
Variable format : object -> str.

(** Unnamed values written one by one land in [args] in their order. *)
Lemma bind_positionals (s : list object) : forall rest args (kwargs : list (str * object)),
  bind_arguments (map (@Positional object) s ++ rest) args kwargs
  = bind_arguments rest (args ++ s) kwargs.
Proof.
  induction s as [|v s IH]; intros rest args kwargs; simpl.
  - now rewrite app_nil_r.
  - rewrite IH, <- app_assoc. reflexivity.
Qed.

(** Named values written one by one are added exactly as the entries of a
    double-starred mapping are. *)
Lemma bind_keywords (m : list (str * object)) : forall args (kwargs : list (str * object)),
  bind_arguments (map (fun kv => Keyword (fst kv) (snd kv)) m) args kwargs
  = match add_mapping kwargs m with
    | Some kwargs' => Some (args, kwargs')
    | None => None
    end.
Proof.
  induction m as [|[k v] m IH]; intros args kwargs; simpl.
  - reflexivity.
  - destruct (add_keyword kwargs k v) as [kwargs'|]; [apply IH | reflexivity].
Qed.

Lemma has_key_app (a b : list (str * object)) k :
  has_key (a ++ b) k = has_key a k || has_key b k.
Proof. unfold has_key. apply existsb_app. Qed.

(** A mapping whose keys are distinct and new is added whole, in order. *)
Lemma add_mapping_fresh (m : list (str * object)) : forall kwargs : list (str * object),
  NoDup (map fst m) ->
  (forall k, In k (map fst m) -> has_key kwargs k = false) ->
  add_mapping kwargs m = Some (kwargs ++ m).
Proof.
  induction m as [|[k v] m IH]; intros kwargs Hnd Hfresh; simpl.
  - now rewrite app_nil_r.
  - simpl in Hnd. inversion Hnd as [|? ? Hk Hnd']; subst.
    unfold add_keyword. rewrite (Hfresh k) by (simpl; auto).
    rewrite IH; [now rewrite <- app_assoc | assumption |].
    intros k' Hk'. rewrite has_key_app, (Hfresh k') by (simpl; auto).
    simpl. rewrite orb_false_r.
    destruct (str_eqb k k') eqn:E; [| reflexivity].
    apply str_eqb_eq in E. subst k'. contradiction.
Qed.

(** C9. Calling [demo_function] with a sequence [s] spread into the unnamed
    slots and a mapping [m] spread into the named slots writes exactly what
    the call with the elements of [s] and the entries of [m] passed one by
    one writes; for a mapping (distinct keys) both calls return, having run
    [demo_function] on the tuple [s] and the dict [m]. *)
Theorem unpacking_same_as_individual (s : list object) (m : list (str * object)) (out : str) :
  call_demo_function format (call_unpacked s m) out
  = call_demo_function format (call_individually s m) out
  /\ (NoDup (map fst m) ->
      call_demo_function format (call_unpacked s m) out
      = Some (demo_function format s m out)
      /\ call_demo_function format (call_individually s m) out
         = Some (demo_function format s m out)).
Proof.
  assert (E : call_demo_function format (call_unpacked s m) out
              = call_demo_function format (call_individually s m) out).
  { unfold call_demo_function, call_unpacked, call_individually.
    rewrite bind_positionals, bind_keywords. simpl.
    destruct (add_mapping [] m); reflexivity. }
  split; [exact E |].
  intros Hnd. rewrite <- E.
  assert (U : call_demo_function format (call_unpacked s m) out
              = Some (demo_function format s m out)).
  { unfold call_demo_function, call_unpacked. simpl.
    rewrite add_mapping_fresh by (auto; intros; reflexivity).
    reflexivity. }
  split; exact U.
Qed.

End Calls.

(** Three unnamed values and one named value: three indexed lines, then
    the line of the named value. *)
Example three_values_one_name :
  call_demo_function obj_format
    [ Positional (OInt 10); Positional (OInt 20); Positional (OInt 30);
      Keyword (py "fruit") (OStr (py "apple")) ] []
  = Some (py "Positional arguments (" ++ py "*args) received:" ++ [10%N]
          ++ py "  Argument 0: 10" ++ [10%N]
          ++ py "  Argument 1: 20" ++ [10%N]
          ++ py "  Argument 2: 30" ++ [10%N]
          ++ [10%N] ++ py "Keyword arguments (" ++ py "**kwargs) received:" ++ [10%N]
          ++ py "  fruit: apple" ++ [10%N]).
Proof. reflexivity. Qed.

(** The script runs to its end. *)
Example script_runs : exists out, script = Some out.
Proof. eexists. reflexivity. Qed.

Lemma unpacking_same_as_individual_witness :
  call_demo_function obj_format (call_unpacked lst person_info) []
  = Some (demo_function obj_format lst person_info [])
  /\ call_demo_function obj_format (call_individually lst person_info) []
     = Some (demo_function obj_format lst person_info []).
Proof.
  apply (proj2 (@unpacking_same_as_individual obj obj_format lst person_info [])).
  repeat (constructor; [simpl; intuition discriminate |]). constructor.
Defined.

(** The second call of the script writes what the call with the three
    fruits and the three entries written out writes. *)
Example script_second_call (out : str) :
  call_demo_function obj_format (call_unpacked lst person_info) out
  = call_demo_function obj_format
      [ Positional (OStr (py "apple")); Positional (OStr (py "banana"));
        Positional (OStr (py "cherry"));
        Keyword (py "name") (OStr (py "Alice")); Keyword (py "age") (OInt 30);
        Keyword (py "city") (OStr (py "New York")) ] out.
Proof. reflexivity. Qed.

End ArgsKwargsSpec.

(* ===================================================================== *)
(** * Properties of the records                                            *)
(* ===================================================================== *)

Module MainSpec.
Import Py Pydantic Main Examples Spec.
Local Open Scope string_scope.
Local Open Scope Z_scope.
Local Open Scope list_scope.

(** ** Dictionaries *)

Lemma dict_get_set_eq (d : dict) k v : dict_get (dict_set d k v) k = Some v.
Proof.
  induction d as [|[k' v'] d IH]; simpl.
  - now rewrite String.eqb_refl.
  - destruct (String.eqb k' k) eqn:E; simpl; rewrite E; auto.
Qed.

Lemma dict_get_set_neq (d : dict) k k' v :
  k' <> k -> dict_get (dict_set d k v) k' = dict_get d k'.
Proof.
  intros Hne. induction d as [|[k0 v0] d IH]; simpl.
  - destruct (String.eqb k k') eqn:E; [apply String.eqb_eq in E; congruence | reflexivity].
  - destruct (String.eqb k0 k) eqn:E; simpl.
    + apply String.eqb_eq in E. subst k0.
      destruct (String.eqb k k') eqn:E'; [apply String.eqb_eq in E'; congruence | reflexivity].
    + now rewrite IH.
Qed.


(** ** Phone numbers *)

Lemma isdigit_spec (s : str) :
  isdigit s = match s with [] => false | _ => true end && forallb isdigit_char s.
Proof. destruct s; reflexivity. Qed.

Lemma replace_hyphen_cons c p :
  replace1 hyphen [] (c :: p)
  = if is_hyphen c then replace1 hyphen [] p else c :: replace1 hyphen [] p.
Proof. unfold replace1, is_hyphen. simpl. destruct (N.eqb c hyphen); reflexivity. Qed.

Lemma hyphen_not_digit c : is_hyphen c = true -> isdigit_char c = false.
Proof. unfold is_hyphen. intros E. apply N.eqb_eq in E. subst c. reflexivity. Qed.

Lemma forallb_replace_hyphen p :
  forallb isdigit_char (replace1 hyphen [] p) = only_digits_and_hyphens p.
Proof.
  induction p as [|c p IH]; [reflexivity |].
  rewrite replace_hyphen_cons. unfold only_digits_and_hyphens in *. simpl.
  destruct (is_hyphen c) eqn:E.
  - rewrite IH, orb_true_r. reflexivity.
  - simpl. rewrite IH, orb_false_r. reflexivity.
Qed.

Lemma nonempty_replace_hyphen p :
  only_digits_and_hyphens p = true ->
  match replace1 hyphen [] p with [] => false | _ => true end = has_digit p.
Proof.
  induction p as [|c p IH]; [reflexivity |].
  rewrite replace_hyphen_cons. unfold only_digits_and_hyphens, has_digit in *. simpl.
  intros H. apply andb_true_iff in H. destruct H as [Hc Hp].
  destruct (is_hyphen c) eqn:E.
  - rewrite (hyphen_not_digit c E). simpl. auto.
  - rewrite orb_false_r in Hc. rewrite Hc. reflexivity.
Qed.

(** What the test of [validate_phone] computes. *)
Lemma isdigit_replace_hyphen p :
  isdigit (replace1 hyphen [] p) = only_digits_and_hyphens p && has_digit p.
Proof.
  rewrite isdigit_spec, forallb_replace_hyphen.
  destruct (only_digits_and_hyphens p) eqn:E.
  - rewrite (nonempty_replace_hyphen p E). now rewrite andb_true_r.
  - now rewrite andb_false_r.
Qed.

(** ** Construction of the small records *)

Lemma succeeds_Ok {A E} (a : A) : succeeds (@Ok A E a).
Proof. exists a. reflexivity. Qed.

Lemma not_succeeds_Err {A E} (e : E) : ~ succeeds (@Err A E e).
Proof. intros [a H]. discriminate. Qed.

(** An [EmergencyContact] made from three texts: the instance, or the
    error of [validate_phone]. *)
Lemma construct_EmergencyContact env data n r p :
  dict_get data "name" = Some (VStr n) ->
  dict_get data "relationship" = Some (VStr r) ->
  dict_get data "phone" = Some (VStr p) ->
  construct env EmergencyContact data
  = if only_digits_and_hyphens p && has_digit p
    then Ok (VModel "EmergencyContact" (contact_data n r p))
    else Err [([LName "phone"], ValueError "Phone must contain only digits and hyphens")].
Proof.
  intros Hn Hr Hp.
  unfold construct, validate_model, validate_fields, EmergencyContact. simpl.
  unfold validate_field. simpl. rewrite Hn, Hr, Hp. simpl.
  unfold validated, field_validate. simpl.
  rewrite isdigit_replace_hyphen.
  destruct (only_digits_and_hyphens p && has_digit p); reflexivity.
Qed.

(** C1, as amended. For every text [p], constructing an [EmergencyContact]
    with [phone=p] (and any texts as name and relationship) succeeds if and
    only if [p] contains only digit characters and hyphens and at least one
    digit character; otherwise it fails with the validation error of the
    phone field. A digit character is one [str.isdigit] accepts. *)
Theorem emergency_contact_phone env data n r p :
  dict_get data "name" = Some (VStr n) ->
  dict_get data "relationship" = Some (VStr r) ->
  dict_get data "phone" = Some (VStr p) ->
  (succeeds (construct env EmergencyContact data)
   <-> only_digits_and_hyphens p = true /\ has_digit p = true)
  /\ (~ succeeds (construct env EmergencyContact data) ->
      construct env EmergencyContact data
      = Err [([LName "phone"], ValueError "Phone must contain only digits and hyphens")]).
Proof.
  intros Hn Hr Hp. rewrite (construct_EmergencyContact env data Hn Hr Hp).
  rewrite <- andb_true_iff.
  destruct (only_digits_and_hyphens p && has_digit p).
  - split; [split; auto using succeeds_Ok |].
    intros H. exfalso. apply H, succeeds_Ok.
  - split; [| reflexivity].
    split; [intros H; exfalso; eapply not_succeeds_Err, H | discriminate].
Qed.

Lemma emergency_contact_phone_witness :
  (succeeds (construct (example_env nov_4_2026) EmergencyContact
               (contact_data (py "Robert Smith") (py "Father") (py "555-987-6543")))
   <-> only_digits_and_hyphens (py "555-987-6543") = true
       /\ has_digit (py "555-987-6543") = true)
  /\ (~ succeeds (construct (example_env nov_4_2026) EmergencyContact
                    (contact_data (py "Robert Smith") (py "Father") (py "555-987-6543"))) ->
      construct (example_env nov_4_2026) EmergencyContact
        (contact_data (py "Robert Smith") (py "Father") (py "555-987-6543"))
      = Err [([LName "phone"], ValueError "Phone must contain only digits and hyphens")]).
Proof.
  apply (@emergency_contact_phone (example_env nov_4_2026)
           (contact_data (py "Robert Smith") (py "Father") (py "555-987-6543"))
           (py "Robert Smith") (py "Father") (py "555-987-6543"));
    reflexivity.
Defined.

(** C1, as stated, fails: a lone hyphen contains only digits and hyphens,
    and no [EmergencyContact] can be made with it. *)
Lemma hyphen_only_phone_rejected :
  only_digits_and_hyphens (py "-") = true
  /\ (forall env n r,
        construct env EmergencyContact (contact_data n r (py "-"))
        = Err [([LName "phone"], ValueError "Phone must contain only digits and hyphens")]).
Proof. split; reflexivity. Qed.

(** The empty text is rejected as well, and a superscript two is a digit. *)
Example empty_phone_rejected env n r :
  ~ succeeds (construct env EmergencyContact (contact_data n r [])).
Proof. apply not_succeeds_Err. Qed.

Example superscript_phone_accepted env n r :
  succeeds (construct env EmergencyContact (contact_data n r [50%N; 178%N])).
Proof. apply succeeds_Ok. Qed.

(** A [Subject] made from two texts and an integer: the instance, or the
    error of the bound that fails. *)
Lemma construct_Subject env data n c z :
  dict_get data "name" = Some (VStr n) ->
  dict_get data "code" = Some (VStr c) ->
  dict_get data "credits" = Some (VInt z) ->
  construct env Subject data
  = if z <? 1 then Err [([LName "credits"], NumberNotGeError)]
    else if 6 <? z then Err [([LName "credits"], NumberNotLeError)]
    else Ok (VModel "Subject" (subject_data n c z)).
Proof.
  intros Hn Hc Hz.
  unfold construct, validate_model, validate_fields, Subject. simpl.
  unfold validate_field. simpl. rewrite Hn, Hc, Hz. simpl.
  unfold validated, field_validate. simpl. unfold int_size_validator.
  rewrite Z.geb_leb, Z.leb_antisym, negb_involutive.
  destruct (z <? 1); [reflexivity |]. simpl.
  rewrite Z.leb_antisym, negb_involutive.
  destruct (6 <? z); reflexivity.
Qed.

(** C2. For every integer [c], constructing a [Subject] with [credits=c]
    (and any texts as name and code) succeeds if and only if [1 <= c <= 6]. *)
Theorem subject_credits_range env data n c z :
  dict_get data "name" = Some (VStr n) ->
  dict_get data "code" = Some (VStr c) ->
  dict_get data "credits" = Some (VInt z) ->
  succeeds (construct env Subject data) <-> 1 <= z <= 6.
Proof.
  intros Hn Hc Hz. rewrite (construct_Subject env data Hn Hc Hz).
  destruct (Z.ltb_spec z 1); [| destruct (Z.ltb_spec 6 z)].
  - split; [intros H'; exfalso; eapply not_succeeds_Err, H' | lia].
  - split; [intros H'; exfalso; eapply not_succeeds_Err, H' | lia].
  - split; [lia | intros _; apply succeeds_Ok].
Qed.

Lemma subject_credits_range_witness :
  succeeds (construct (example_env nov_4_2026) Subject
              (subject_data (py "Computer Science") (py "CS101") 4))
  <-> 1 <= 4 <= 6.
Proof.
  apply (@subject_credits_range (example_env nov_4_2026)
           (subject_data (py "Computer Science") (py "CS101") 4)
           (py "Computer Science") (py "CS101") 4);
    reflexivity.
Defined.

Example subject_credits_0 env n c :
  ~ succeeds (construct env Subject (subject_data n c 0)).
Proof. apply not_succeeds_Err. Qed.

Example subject_credits_7 env n c :
  ~ succeeds (construct env Subject (subject_data n c 7)).
Proof. apply not_succeeds_Err. Qed.

(** ** Failures carry an error *)

(** Case analysis on an innermost scrutinee of the goal. *)
Ltac break_match :=
  match goal with
  | |- context [match ?x with _ => _ end] =>
      lazymatch x with
      | context [match _ with _ => _ end] => fail
      | _ => destruct x eqn:?
      end
  end.

Lemma enum_lookup_err cls members s :
  enum_lookup cls members s <> Err [].
Proof.
  induction members as [|[m s'] members IH]; simpl; [discriminate |].
  destruct (str_eqb s' s); [discriminate | exact IH].
Qed.

Lemma validate_type_err env t v : validate_type env t v <> Err [].
Proof.
  destruct t; simpl;
    unfold str_validator, int_validator, float_validator, instance_or_coerce,
      int_size_validator, float_size_validator, anystr_length_validator, fail;
    try (repeat break_match; discriminate).
  destruct v; try discriminate; apply enum_lookup_err.
Qed.

Lemma field_validate_err env f v values : field_validate env f v values <> Err [].
Proof.
  unfold field_validate, at_field.
  destruct v; repeat break_match; try discriminate;
    match goal with
    | H : validate_type _ _ _ = Err ?es |- _ =>
        destruct es; [now apply validate_type_err in H | discriminate]
    end.
Qed.

(** ** The loop of [validate_model] *)

Section Loop.

Variable env : Env.
Variable data : dict.

Lemma validate_field_errs st f :
  exists es, errs (validate_field env data st f) = errs st ++ es.
Proof.
  unfold validate_field, validated.
  destruct (dict_get data (name f)) as [v|].
  - destruct (field_validate env f v (values st)); simpl; eauto.
    exists []. now rewrite app_nil_r.
  - destruct (required f); simpl; eauto.
    destruct (validate_always f); simpl.
    + destruct (field_validate env f (get_default f env) (values st)); simpl; eauto.
      exists []. now rewrite app_nil_r.
    + exists []. now rewrite app_nil_r.
Qed.

Lemma validate_fields_errs fs : forall st,
  exists es, errs (validate_fields env fs data st) = errs st ++ es.
Proof.
  induction fs as [|f fs IH]; intros st; simpl.
  - exists []. now rewrite app_nil_r.
  - destruct (IH (validate_field env data st f)) as [es Hes].
    destruct (validate_field_errs st f) as [es' Hes'].
    exists (es' ++ es). unfold validate_fields in *. simpl.
    rewrite Hes, Hes', app_assoc. reflexivity.
Qed.

(** A run without errors had none at any earlier point. *)
Lemma validate_fields_no_errs fs st :
  errs (validate_fields env fs data st) = [] -> errs st = [].
Proof.
  destruct (validate_fields_errs fs st) as [es Hes]. rewrite Hes.
  intros H. now apply app_eq_nil in H.
Qed.

Lemma validate_fields_app a b st :
  validate_fields env (a ++ b) data st
  = validate_fields env b data (validate_fields env a data st).
Proof. unfold validate_fields. apply fold_left_app. Qed.

(** A field that is validated without error gets its value, as
    [field_outcome] describes it. *)
Lemma validate_field_ok st f :
  errs (validate_field env data st f) = [] ->
  errs st = []
  /\ exists v', values (validate_field env data st f) = dict_set (values st) (name f) v'
               /\ field_outcome env data f (values st) v'.
Proof.
  unfold validate_field, validated, field_outcome.
  destruct (dict_get data (name f)) as [v|].
  - destruct (field_validate env f v (values st)) as [v'|es] eqn:E; simpl; intros H.
    + split; [assumption | eauto].
    + apply app_eq_nil in H. destruct H as [_ H]. subst es.
      now apply field_validate_err in E.
  - destruct (required f); simpl.
    + intros H. apply app_eq_nil in H. destruct H; discriminate.
    + destruct (validate_always f); simpl.
      * destruct (field_validate env f (get_default f env) (values st)) as [v'|es] eqn:E;
          simpl; intros H.
        -- split; [assumption | eauto].
        -- apply app_eq_nil in H. destruct H as [_ H]. subst es.
           now apply field_validate_err in E.
      * intros H. split; [assumption | eauto].
Qed.

(** Validating a field touches no other entry of [values]. *)
Lemma validate_field_frame st f k :
  k <> name f ->
  dict_get (values (validate_field env data st f)) k = dict_get (values st) k.
Proof.
  intros Hk. unfold validate_field, validated.
  destruct (dict_get data (name f)) as [v|].
  - destruct (field_validate env f v (values st)); simpl;
      [now apply dict_get_set_neq | reflexivity].
  - destruct (required f); simpl; [reflexivity |].
    destruct (validate_always f); simpl.
    + destruct (field_validate env f (get_default f env) (values st)); simpl;
        [now apply dict_get_set_neq | reflexivity].
    + now apply dict_get_set_neq.
Qed.

Lemma validate_fields_frame fs : forall st k,
  ~ In k (map name fs) ->
  dict_get (values (validate_fields env fs data st)) k = dict_get (values st) k.
Proof.
  induction fs as [|f fs IH]; intros st k Hk; [reflexivity |].
  simpl in Hk. unfold validate_fields in *. simpl.
  rewrite IH by tauto. apply validate_field_frame. intros E. subst k. tauto.
Qed.

(** The value a run without errors leaves for a field is the outcome of
    validating it against the values of the fields before it, and those
    values are final. *)
Lemma validate_fields_field pre f post st :
  NoDup (map name (pre ++ f :: post)) ->
  errs (validate_fields env (pre ++ f :: post) data st) = [] ->
  let before := values (validate_fields env pre data st) in
  let final := values (validate_fields env (pre ++ f :: post) data st) in
  exists v',
    dict_get final (name f) = Some v'
    /\ field_outcome env data f before v'
    /\ (forall k, ~ In k (map name (f :: post)) -> dict_get final k = dict_get before k).
Proof.
  intros Hnd Herr. cbv zeta.
  rewrite validate_fields_app in *.
  change (validate_fields env (f :: post) data ?s)
    with (validate_fields env post data (validate_field env data s f)) in *.
  set (st_pre := validate_fields env pre data st) in *.
  apply validate_fields_no_errs in Herr.
  destruct (validate_field_ok st_pre f Herr) as [_ [v' [Hv Hout]]].
  rewrite map_app in Hnd. apply NoDup_remove_2 in Hnd.
  exists v'. split; [| split].
  - rewrite validate_fields_frame, Hv; [apply dict_get_set_eq |].
    intros HIn. apply Hnd. apply in_or_app. now right.
  - exact Hout.
  - intros k Hk. simpl in Hk.
    rewrite validate_fields_frame by tauto.
    apply validate_field_frame. intros E. subst k. tauto.
Qed.

Lemma split_field_spec k : forall fs pre f post,
  split_field fs k = Some (pre, f, post) -> fs = pre ++ f :: post /\ name f = k.
Proof.
  induction fs as [|g fs IH]; simpl; intros pre f post H; [discriminate |].
  destruct (String.eqb (name g) k) eqn:E.
  - inversion H; subst. apply String.eqb_eq in E. auto.
  - destruct (split_field fs k) as [[[pre' f'] post']|]; [| discriminate].
    inversion H; subst. destruct (IH _ _ _ eq_refl) as [-> Hk]. auto.
Qed.

Lemma validate_fields_at fs k pre f post st :
  split_field fs k = Some (pre, f, post) ->
  NoDup (map name fs) ->
  errs (validate_fields env fs data st) = [] ->
  let before := values (validate_fields env pre data st) in
  let final := values (validate_fields env fs data st) in
  exists v',
    dict_get final k = Some v'
    /\ field_outcome env data f before v'
    /\ (forall k', In k' (map name pre) -> dict_get before k' = dict_get final k').
Proof.
  intros Hsplit Hnd Herr. apply split_field_spec in Hsplit.
  destruct Hsplit as [-> <-]. cbv zeta.
  destruct (validate_fields_field pre f post st Hnd Herr) as [v' [Hv [Hout Hframe]]].
  exists v'. split; [exact Hv | split; [exact Hout |]].
  intros k' Hk'. symmetry. apply Hframe.
  rewrite map_app in Hnd. intros HIn.
  revert Hnd Hk' HIn. generalize (map name pre) (map name (f :: post)). clear.
  intros a b Hnd Ha Hb. induction a as [|x a IH]; [contradiction |].
  simpl in Hnd. inversion Hnd as [|? ? Hx Hnd']; subst.
  destruct Ha as [-> | Ha]; [| now apply IH].
  apply Hx. apply in_or_app. now right.
Qed.

(** A field that is supplied and whose validation cannot fail gets its
    value whatever happens to the other fields. *)
Lemma validate_fields_given fs k pre f post st v v' :
  split_field fs k = Some (pre, f, post) ->
  NoDup (map name fs) ->
  dict_get data k = Some v ->
  (forall before, field_validate env f v before = Ok v') ->
  dict_get (values (validate_fields env fs data st)) k = Some v'.
Proof.
  intros Hsplit Hnd Hv Hval. apply split_field_spec in Hsplit.
  destruct Hsplit as [-> <-].
  rewrite validate_fields_app.
  change (validate_fields env (f :: post) data ?s)
    with (validate_fields env post data (validate_field env data s f)).
  rewrite map_app in Hnd. apply NoDup_remove_2 in Hnd.
  rewrite validate_fields_frame
    by (intros HIn; apply Hnd; apply in_or_app; now right).
  unfold validate_field, validated. rewrite Hv, Hval. simpl.
  apply dict_get_set_eq.
Qed.



End Loop.

(** ** Construction of a [Student] *)

Definition no_values : vstate := {| values := []; errs := []; names_used := [] |}.

Lemma check_graduation_year_ok env values values' :
  check_graduation_year env values = Ok values' -> values' = values.
Proof.
  unfold check_graduation_year. repeat break_match; congruence.
Qed.

Lemma Student_fields_NoDup : NoDup (map name (fields Student)).
Proof.
  simpl. repeat (constructor; [simpl; intuition discriminate |]). constructor.
Qed.

(** A [Student] that is constructed: no field failed, no argument was
    left over, the cross-field rule passed, and the instance holds the
    validated values. *)
Lemma Student_constructed env data c d :
  construct env Student data = Ok (VModel c d) ->
  let st := validate_fields env (fields Student) data no_values in
  errs st = [] /\ d = values st /\ check_graduation_year env d = Ok d
  /\ extra_keys data (names_used st) = [].
Proof.
  unfold construct, validate_model. cbv zeta. fold no_values.
  set (st := validate_fields env (fields Student) data no_values).
  unfold run_root_validators, check_extra.
  change (extra (config Student)) with Forbid.
  change (root_validators Student) with [check_graduation_year].
  cbv iota. simpl. unfold run_root_validator. simpl.
  destruct (check_graduation_year env (values st)) as [values'|e] eqn:E; simpl.
  - apply check_graduation_year_ok in E as E'. subst values'.
    destruct (errs st ++ _) eqn:Herrs; [| discriminate].
    intros H. inversion H; subst.
    apply app_eq_nil in Herrs. destruct Herrs as [Herrs Hextra].
    apply map_eq_nil in Hextra.
    repeat split; auto.
    destruct (extra_keys data (names_used st)) as [|k ks]; [reflexivity |].
    simpl in Hextra. exfalso. revert Hextra. clear.
    generalize (sorted ks). intros l.
    destruct l as [|k' l]; simpl; [discriminate |].
    destruct (String.leb k k'); discriminate.
  - destruct ((errs st ++ _) ++ _) eqn:Herrs; [| discriminate].
    apply app_eq_nil in Herrs. destruct Herrs; discriminate.
Qed.

(** The value of the field named [k] in a constructed [Student]. *)
Lemma Student_field env data c d k pre f post :
  construct env Student data = Ok (VModel c d) ->
  split_field (fields Student) k = Some (pre, f, post) ->
  exists v' before,
    dict_get d k = Some v'
    /\ field_outcome env data f before v'
    /\ (forall k', In k' (map name pre) -> dict_get before k' = dict_get d k').
Proof.
  intros Hc Hsplit. apply Student_constructed in Hc.
  destruct Hc as [Herr [-> _]].
  destruct (validate_fields_at env data _ k no_values Hsplit Student_fields_NoDup Herr)
    as [v' H].
  exists v', (values (validate_fields env pre data no_values)). exact H.
Qed.

(** A field given as a text, an integer or a date is kept as it is. *)
Lemma Student_field_given env data c d k pre f post v :
  construct env Student data = Ok (VModel c d) ->
  split_field (fields Student) k = Some (pre, f, post) ->
  dict_get data k = Some v ->
  (forall before, field_validate env f v before = Ok v) ->
  dict_get d k = Some v.
Proof.
  intros Hc Hsplit Hv Hval.
  destruct (Student_field env data k Hc Hsplit) as [v' [before [Hd [Hout _]]]].
  apply split_field_spec in Hsplit. destruct Hsplit as [_ Hk].
  unfold field_outcome in Hout. rewrite Hk, Hv, Hval in Hout.
  congruence.
Qed.

(** C6. For every [Student] construction where [full_name] is not supplied
    and [first_name] and [last_name] are texts, the constructed record's
    [full_name] is [first_name], a single space, and [last_name]. *)
Theorem full_name_derived env data fn ln c d :
  dict_get data "full_name" = None ->
  dict_get data "first_name" = Some (VStr fn) ->
  dict_get data "last_name" = Some (VStr ln) ->
  construct env Student data = Ok (VModel c d) ->
  dict_get d "full_name" = Some (VStr (fn ++ py " " ++ ln)).
Proof.
  intros Hfull Hfirst Hlast Hc.
  assert (H1 : dict_get d "first_name" = Some (VStr fn)).
  { eapply Student_field_given; [exact Hc | reflexivity | exact Hfirst | reflexivity]. }
  assert (H2 : dict_get d "last_name" = Some (VStr ln)).
  { eapply Student_field_given; [exact Hc | reflexivity | exact Hlast | reflexivity]. }
  destruct (Student_field env data "full_name" Hc eq_refl)
    as [v' [before [Hd [Hout Hbefore]]]].
  rewrite Hd. unfold field_outcome in Hout. simpl in Hout.
  rewrite Hfull in Hout. destruct Hout as [_ Hout].
  unfold field_validate in Hout. simpl in Hout.
  unfold set_full_name, dict_in, dict_get_or_none in Hout. simpl in Hout.
  rewrite !Hbefore in Hout by (simpl; tauto).
  rewrite H1, H2 in Hout. simpl in Hout.
  inversion Hout. reflexivity.
Qed.

Lemma full_name_derived_witness :
  dict_get (jane (Date 2000 5 15) (py "SecurePassword123") 26) "full_name"
  = Some (VStr (py "Jane" ++ py " " ++ py "Smith")).
Proof.
  apply (@full_name_derived (example_env nov_4_2026)
           (jane_data (Date 2000 5 15) (py "SecurePassword123") (VInt 2024))
           (py "Jane") (py "Smith") "Student"
           (jane (Date 2000 5 15) (py "SecurePassword123") 26));
    reflexivity.
Defined.

(** The sample student is made; so is the student of the script, and it is
    printed, when the clock reads 2021. *)
Example sample_student_and_script :
  construct (example_env nov_4_2026) Student
    (jane_data (Date 2000 5 15) (py "SecurePassword123") (VInt 2024))
  = Ok (VModel "Student" (jane (Date 2000 5 15) (py "SecurePassword123") 26))
  /\ exists text, main (example_env nov_4_2026) = Ok text.
Proof. split; [reflexivity | eexists; reflexivity]. Qed.

(** ** The derived age *)

(** The age of a constructed [Student] when none is supplied. *)
Lemma age_derived env data dob c d :
  dict_get data "age" = None ->
  dict_get data "date_of_birth" = Some (VDate dob) ->
  construct env Student data = Ok (VModel c d) ->
  dict_get d "age" = Some (VInt (whole_years (today env) dob)).
Proof.
  intros Hage Hdob Hc.
  assert (H1 : dict_get d "date_of_birth" = Some (VDate dob)).
  { eapply Student_field_given; [exact Hc | reflexivity | exact Hdob |].
    intros before. unfold field_validate. simpl.
    unfold instance_or_coerce. reflexivity. }
  destruct (Student_field env data "age" Hc eq_refl)
    as [v' [before [Hd [Hout Hbefore]]]].
  rewrite Hd. unfold field_outcome in Hout. simpl in Hout.
  rewrite Hage in Hout. destruct Hout as [_ Hout].
  unfold field_validate in Hout. simpl in Hout.
  unfold calculate_age in Hout.
  rewrite Hbefore, H1 in Hout by (simpl; tauto).
  simpl in Hout. inversion Hout. reflexivity.
Qed.

(** On any day but the last of the year, the day after comes later in the
    calendar year. *)
Lemma next_day_later today :
  valid_date today = true ->
  is_dec_31 today = false ->
  pair_lt (month today, day today) (month (next_day today), day (next_day today)) = true.
Proof.
  unfold valid_date, is_dec_31, next_day, pair_lt. intros Hv Hd.
  repeat (apply andb_true_iff in Hv; destruct Hv as [Hv ?]).
  destruct (Z.ltb_spec (day today) (days_in_month (year today) (month today))); simpl.
  - rewrite Z.eqb_refl. apply Z.ltb_lt. lia.
  - destruct (Z.ltb_spec (month today) 12); simpl.
    + destruct (Z.eqb_spec (month today) (month today + 1)); [lia |].
      apply Z.ltb_lt. lia.
    + exfalso.
      assert (Hm : month today = 12) by lia.
      rewrite Hm in *. change (days_in_month (year today) 12) with 31 in *.
      assert (Hday : day today = 31) by lia.
      rewrite Hday in Hd. discriminate.
Qed.

(** C7, as amended. For every [Student] construction where [age] is not
    supplied, the age is the whole years elapsed from [date_of_birth] to the
    current date, with a month/day cutoff; when the month and day of
    [date_of_birth] are those of the day after today, in an earlier year,
    and today is not 31 December, the derived age is one less than the
    difference of the years. *)
Theorem age_one_less_before_birthday env data dob c d :
  dict_get data "age" = None ->
  dict_get data "date_of_birth" = Some (VDate dob) ->
  construct env Student data = Ok (VModel c d) ->
  dict_get d "age" = Some (VInt (whole_years (today env) dob))
  /\ (valid_date (today env) = true ->
      is_dec_31 (today env) = false ->
      one_day_after_in_earlier_year (today env) dob ->
      dict_get d "age" = Some (VInt (year (today env) - year dob - 1))).
Proof.
  intros Hage Hdob Hc.
  pose proof (age_derived env data Hage Hdob Hc) as H.
  split; [exact H |].
  intros Hv Hd [_ [Hm Hday]]. rewrite H. unfold whole_years.
  rewrite Hm, Hday, next_day_later by assumption. reflexivity.
Qed.

Lemma age_one_less_before_birthday_witness :
  dict_get (jane (Date 2000 11 5) (py "SecurePassword123") 25) "age"
  = Some (VInt (whole_years nov_4_2026 (Date 2000 11 5)))
  /\ dict_get (jane (Date 2000 11 5) (py "SecurePassword123") 25) "age"
     = Some (VInt (2026 - 2000 - 1)).
Proof.
  destruct (@age_one_less_before_birthday (example_env nov_4_2026)
              (jane_data (Date 2000 11 5) (py "SecurePassword123") (VInt 2024))
              (Date 2000 11 5) "Student"
              (jane (Date 2000 11 5) (py "SecurePassword123") 25)
              eq_refl eq_refl eq_refl) as [H1 H2].
  split; [exact H1 |].
  apply H2; [reflexivity | reflexivity |].
  repeat split.
Defined.

(** C7, as stated, fails on 31 December: the day after is 1 January, and
    someone born on 1 January 2000 is 24 on 31 December 2024, which is the
    difference of the years and not one less. *)
Lemma age_on_new_years_eve :
  one_day_after_in_earlier_year dec_31_2024 (Date 2000 1 1)
  /\ construct (example_env dec_31_2024) Student
       (jane_data (Date 2000 1 1) (py "SecurePassword123") (VInt 2024))
     = Ok (VModel "Student" (jane (Date 2000 1 1) (py "SecurePassword123") 24))
  /\ dict_get (jane (Date 2000 1 1) (py "SecurePassword123") 24) "age"
     = Some (VInt (year dec_31_2024 - year (Date 2000 1 1)))
  /\ dict_get (jane (Date 2000 1 1) (py "SecurePassword123") 24) "age"
     <> Some (VInt (year dec_31_2024 - year (Date 2000 1 1) - 1)).
Proof.
  repeat split; try reflexivity. discriminate.
Qed.

(** ** The cross-field rule *)

(** What [validate_model] returns for a [Student]: the validated values,
    and the errors of the fields, of the arguments left over and of the
    cross-field rule. *)
Lemma validate_model_Student env data :
  let st := validate_fields env (fields Student) data no_values in
  validate_model env Student data
  = (values st,
     (errs st ++ map (fun k => ([LName k], ExtraError))
                     (sorted (extra_keys data (names_used st))))
     ++ match check_graduation_year env (values st) with
        | Ok _ => []
        | Err e => [([LName ROOT_KEY], e)]
        end).
Proof.
  unfold validate_model. cbv zeta. fold no_values.
  set (st := validate_fields env (fields Student) data no_values).
  unfold run_root_validators, check_extra.
  change (extra (config Student)) with Forbid.
  change (root_validators Student) with [check_graduation_year].
  cbv iota. simpl. unfold run_root_validator. simpl.
  destruct (check_graduation_year env (values st)) as [values'|e] eqn:E; simpl.
  - apply check_graduation_year_ok in E. subst values'. now rewrite app_nil_r.
  - reflexivity.
Qed.

(** The rule on a graduation year [g] and an enrollment date [t]. *)
Lemma check_graduation_year_spec env values g t :
  dict_get values "graduation_year" = Some (VInt g) ->
  dict_get values "enrollment_date" = Some (VDatetime t) ->
  check_graduation_year env values
  = if negb (g =? 0) && (g <? dt_year t)
    then Err (ValueError "Graduation year cannot be before enrollment year")
    else Ok values.
Proof.
  intros Hg Ht. unfold check_graduation_year, dict_get_or_none.
  rewrite Hg, Ht. simpl. rewrite andb_true_r.
  destruct (g =? 0); reflexivity.
Qed.

(** The rule does not reject a graduation year that equals or exceeds the
    year of enrollment. *)
Lemma graduation_not_before_enrollment_passes env values g t :
  dict_get values "graduation_year" = Some (VInt g) ->
  dict_get values "enrollment_date" = Some (VDatetime t) ->
  dt_year t <= g ->
  check_graduation_year env values = Ok values.
Proof.
  intros Hg Ht Hle. rewrite (check_graduation_year_spec env values Hg Ht).
  destruct (Z.ltb_spec g (dt_year t)); [lia |]. now rewrite andb_false_r.
Qed.

(** A graduation year other than zero that precedes the year of enrollment
    fails the construction with the cross-field error. *)
Lemma graduation_before_enrollment_rejected env data g t :
  dict_get data "graduation_year" = Some (VInt g) ->
  dict_get data "enrollment_date" = Some (VDatetime t) ->
  g <> 0 ->
  g < dt_year t ->
  exists es, construct env Student data = Err es /\ In cross_field_error es.
Proof.
  intros Hg Ht Hnz Hlt.
  unfold construct. rewrite validate_model_Student. cbv zeta.
  set (st := validate_fields env (fields Student) data no_values).
  assert (Hg' : dict_get (values st) "graduation_year" = Some (VInt g)).
  { eapply validate_fields_given;
      [reflexivity | exact Student_fields_NoDup | exact Hg | reflexivity]. }
  assert (Ht' : dict_get (values st) "enrollment_date" = Some (VDatetime t)).
  { eapply validate_fields_given;
      [reflexivity | exact Student_fields_NoDup | exact Ht | reflexivity]. }
  rewrite (check_graduation_year_spec env (values st) Hg' Ht').
  destruct (Z.eqb_spec g 0); [contradiction |].
  destruct (Z.ltb_spec g (dt_year t)); [| lia]. simpl.
  match goal with
  | |- exists es, match ?l with _ => _ end = _ /\ _ =>
      assert (HIn : In cross_field_error l) by (apply in_or_app; right; now left);
      destruct l as [|e es']; [contradiction | exists (e :: es'); auto]
  end.
Qed.

(** Graduation year 2020 with an enrollment in 2021 fails with the
    cross-field error; 2024 succeeds. *)
Example graduation_2020_enrollment_2021 :
  construct (example_env nov_4_2026) Student
    (jane_data (Date 2000 5 15) (py "SecurePassword123") (VInt 2020))
  = Err [cross_field_error].
Proof. reflexivity. Qed.

Example graduation_2024_enrollment_2021 :
  construct (example_env nov_4_2026) Student
    (jane_data (Date 2000 5 15) (py "SecurePassword123") (VInt 2024))
  = Ok (VModel "Student" (jane (Date 2000 5 15) (py "SecurePassword123") 26)).
Proof. reflexivity. Qed.

(** C3, at the input where the code departs from it. Graduation year 0
    precedes an enrollment in 2021, and the construction succeeds: the rule
    tests the graduation year for truth, and 0 is false. *)
Theorem graduation_year_zero_accepted :
  0 < dt_year (Datetime (Date 2021 9 1) 9 0 0 0)
  /\ construct (example_env nov_4_2026) Student
       (jane_data (Date 2000 5 15) (py "SecurePassword123") (VInt 0))
     = Ok (VModel "Student"
             (dict_set (jane (Date 2000 5 15) (py "SecurePassword123") 26)
                       "graduation_year" (VInt 0))).
Proof. split; reflexivity. Qed.

(** In any environment, the rule lets graduation year 0 pass. *)
Lemma graduation_year_zero_passes env values t :
  dict_get values "graduation_year" = Some (VInt 0) ->
  dict_get values "enrollment_date" = Some (VDatetime t) ->
  check_graduation_year env values = Ok values.
Proof.
  intros Hg Ht. now rewrite (check_graduation_year_spec env values Hg Ht).
Qed.

(** ** Arguments that name no field *)










Example student_with_undeclared_field :
  construct (example_env nov_4_2026) Student
    (jane_data (Date 2000 5 15) (py "SecurePassword123") (VInt 2024)
     ++ [("nickname", VStr (py "JJ"))])
  = Err [([LName "nickname"], ExtraError)].
Proof. reflexivity. Qed.

(** ** Assignment to an attribute *)









(** ** The password in the JSON text *)

Lemma to_jsonable_secret p q :
  str_truthy p = str_truthy q ->
  to_jsonable (VSecretStr p) = to_jsonable (VSecretStr q).
Proof. intros H. simpl. unfold secret_str. now rewrite H. Qed.

(** The entries written for two [__dict__]s that differ in one value,
    when the two values are written alike. *)
Lemma jsonable_entries_set (d : dict) k a b :
  to_jsonable a = to_jsonable b ->
  map (fun kv => (py (fst kv), to_jsonable (snd kv))) (dict_set d k a)
  = map (fun kv => (py (fst kv), to_jsonable (snd kv))) (dict_set d k b).
Proof.
  intros H. induction d as [|[k' v'] d IH]; simpl.
  - now rewrite H.
  - destruct (String.eqb k' k); simpl; [now rewrite H | now rewrite IH].
Qed.

(** C10, as amended. For any two [Student]s that differ only in the
    password value, and whose passwords are both non-empty or both empty,
    the JSON text of the two records is identical: a non-empty password is
    written as a fixed mask and never as the secret; an empty one is written
    as the empty text. *)
Theorem json_hides_password env a b p q :
  differ_only_in_password a b p q ->
  str_truthy p = str_truthy q ->
  json_text env a = json_text env b
  /\ (str_truthy p = true -> to_jsonable (VSecretStr p) = JStr mask)
  /\ (str_truthy p = false -> to_jsonable (VSecretStr p) = JStr []).
Proof.
  intros [cls [d [-> ->]]] H. split; [| split].
  - unfold json_text. f_equal.
    change (JObj (map (fun kv => (py (fst kv), to_jsonable (snd kv)))
                      (dict_set d "password" (VSecretStr p)))
            = JObj (map (fun kv => (py (fst kv), to_jsonable (snd kv)))
                        (dict_set d "password" (VSecretStr q)))).
    f_equal. apply jsonable_entries_set. now apply to_jsonable_secret.
  - intros Hp. simpl. unfold secret_str. now rewrite Hp.
  - intros Hp. simpl. unfold secret_str. now rewrite Hp.
Qed.

Lemma json_hides_password_witness :
  json_text (example_env nov_4_2026)
    (VModel "Student" (jane (Date 2000 5 15) (py "SecurePassword123") 26))
  = json_text (example_env nov_4_2026)
      (VModel "Student" (jane (Date 2000 5 15) (py "hunter2") 26)).
Proof.
  refine (proj1 (@json_hides_password (example_env nov_4_2026)
                   (VModel "Student" (jane (Date 2000 5 15) (py "SecurePassword123") 26))
                   (VModel "Student" (jane (Date 2000 5 15) (py "hunter2") 26))
                   (py "SecurePassword123") (py "hunter2") _ eq_refl)).
  exists "Student", (jane (Date 2000 5 15) (py "SecurePassword123") 26).
  split; reflexivity.
Defined.

(** C10, as stated, fails: two [Student]s that differ only in the password,
    one empty and one not, have different JSON texts, whatever the
    environment. *)
Lemma empty_password_shows :
  construct (example_env nov_4_2026) Student
    (jane_data (Date 2000 5 15) [] (VInt 2024))
  = Ok (VModel "Student" (jane (Date 2000 5 15) [] 26))
  /\ construct (example_env nov_4_2026) Student
       (jane_data (Date 2000 5 15) (py "x") (VInt 2024))
     = Ok (VModel "Student" (jane (Date 2000 5 15) (py "x") 26))
  /\ differ_only_in_password
       (VModel "Student" (jane (Date 2000 5 15) [] 26))
       (VModel "Student" (jane (Date 2000 5 15) (py "x") 26)) [] (py "x")
  /\ (forall env,
        json_text env (VModel "Student" (jane (Date 2000 5 15) [] 26))
        <> json_text env (VModel "Student" (jane (Date 2000 5 15) (py "x") 26))).
Proof.
  split; [reflexivity | split; [reflexivity | split]].
  - exists "Student", (jane (Date 2000 5 15) [] 26). split; reflexivity.
  - intros env H. unfold json_text in H.
    apply (f_equal (fun t => nth 148 t 0%N)) in H.
    vm_compute in H. discriminate.
Qed.

End MainSpec.

(* ===================================================================== *)
(** * Further properties of the records                                    *)
(* ===================================================================== *)

Module RecordsSpec.
Import Py Pydantic Main Examples Spec Shapes MainSpec.
Local Unset Implicit Arguments.
Local Open Scope string_scope.
Local Open Scope Z_scope.
Local Open Scope list_scope.

(** ** Errors are kept *)

Section Errors.

Variable env : Env.
Variable data : dict.





(** The keys of [values] after a loop without errors: those it started
    with, then the names of the fields in declaration order. *)
Lemma dict_keys_set_fresh (d : dict) k v :
  ~ In k (dict_keys d) -> dict_keys (dict_set d k v) = dict_keys d ++ [k].
Proof.
  unfold dict_keys. induction d as [|[k' v'] d IH]; simpl; intros H; [reflexivity |].
  destruct (String.eqb k' k) eqn:E.
  - apply String.eqb_eq in E. tauto.
  - simpl. rewrite IH by tauto. reflexivity.
Qed.

Lemma validate_fields_keys fs : forall st,
  NoDup (dict_keys (values st) ++ map name fs) ->
  errs (validate_fields env fs data st) = [] ->
  dict_keys (values (validate_fields env fs data st))
  = dict_keys (values st) ++ map name fs.
Proof.
  induction fs as [|f fs IH]; intros st Hnd Herr; simpl.
  - now rewrite app_nil_r.
  - unfold validate_fields in *. simpl in *.
    pose proof (@validate_fields_no_errs env data fs _ Herr) as Hstep.
    destruct (@validate_field_ok env data st f Hstep) as [_ [v' [Hv _]]].
    assert (Hk : dict_keys (values (validate_field env data st f))
                 = dict_keys (values st) ++ [name f]).
    { rewrite Hv. apply dict_keys_set_fresh.
      apply NoDup_remove_2 in Hnd. intros H. apply Hnd. apply in_or_app. now left. }
    rewrite IH; rewrite ?Hk, <- ?app_assoc; auto.
Qed.

End Errors.

(** ** The three records without a configuration *)

(** A record of a class with the default configuration and no root
    validator that is constructed: no field failed, and the instance holds
    the validated values. *)
Lemma default_constructed env cls data c d :
  extra (config cls) = Ignore ->
  root_validators cls = [] ->
  construct env cls data = Ok (VModel c d) ->
  let st := validate_fields env (fields cls) data no_values in
  errs st = [] /\ d = values st /\ c = cls_name cls.
Proof.
  intros Hcfg Hrv. unfold construct, validate_model. cbv zeta. fold no_values.
  unfold check_extra, run_root_validators. rewrite Hcfg, Hrv. simpl.
  destruct (errs _) eqn:E; [| discriminate].
  intros H. inversion H. auto.
Qed.

Lemma construct_cls_name env cls data c d :
  construct env cls data = Ok (VModel c d) -> c = cls_name cls.
Proof.
  unfold construct. destruct (validate_model env cls data) as [v [|e es]]; intros H.
  - injection H as <- _. reflexivity.
  - discriminate.
Qed.

Lemma model_class_cases cls :
  In cls model_classes ->
  cls = Student
  \/ (extra (config cls) = Ignore /\ root_validators cls = []).
Proof.
  unfold model_classes. simpl. intros [<- | [<- | [<- | [<- | []]]]]; auto.
Qed.

Lemma model_class_NoDup cls :
  In cls model_classes -> NoDup (map name (fields cls)).
Proof.
  unfold model_classes. simpl. intros [<- | [<- | [<- | [<- | []]]]]; simpl;
    repeat (constructor; [simpl; intuition discriminate |]); constructor.
Qed.

(** What is common to the four classes: a record that is constructed went
    through the loop over its fields without an error and holds the values of
    that loop. *)
Lemma model_constructed env cls data c d :
  In cls model_classes ->
  construct env cls data = Ok (VModel c d) ->
  let st := validate_fields env (fields cls) data no_values in
  errs st = [] /\ d = values st /\ c = cls_name cls.
Proof.
  intros Hcls Hc. destruct (model_class_cases cls Hcls) as [-> | [Hcfg Hrv]].
  - pose proof (construct_cls_name env Student data c d Hc) as Hname.
    apply Student_constructed in Hc.
    destruct Hc as [H1 [H2 _]]. split; [exact H1 | split; [exact H2 | exact Hname]].
  - now apply default_constructed.
Qed.

(** A required text field that is given a text takes it. *)
Lemma step_required_str env data st n s :
  dict_get data n = Some (VStr s) ->
  validate_field env data st (required_field n (TStr None))
  = {| values := dict_set (values st) n (VStr s); errs := errs st;
       names_used := n :: names_used st |}.
Proof.
  intros H. unfold validate_field, validated. simpl. rewrite H. reflexivity.
Qed.

(** X1. An [Address] made from four texts without a [country] has the
    country USA; a country given as a text is kept; [None] is not accepted
    in place of the default. *)
Theorem address_country_default env data street city state zip_code :
  dict_get data "street" = Some (VStr street) ->
  dict_get data "city" = Some (VStr city) ->
  dict_get data "state" = Some (VStr state) ->
  dict_get data "zip_code" = Some (VStr zip_code) ->
  (dict_get data "country" = None ->
   construct env Address data
   = Ok (VModel "Address" (address_data street city state zip_code (py "USA"))))
  /\ (forall country,
        dict_get data "country" = Some (VStr country) ->
        construct env Address data
        = Ok (VModel "Address" (address_data street city state zip_code country)))
  /\ (dict_get data "country" = Some VNone ->
      construct env Address data = Err [([LName "country"], NoneIsNotAllowedError)]).
Proof.
  intros H1 H2 H3 H4.
  unfold construct, validate_model, validate_fields.
  cbn [fields Address fold_left].
  rewrite (step_required_str env data _ "street" street H1).
  rewrite (step_required_str env data _ "city" city H2).
  rewrite (step_required_str env data _ "state" state H3).
  rewrite (step_required_str env data _ "zip_code" zip_code H4).
  cbn [values errs names_used].
  unfold validate_field, validated.
  cbn [name required get_default default_field validate_always class_validators existsb].
  split; [| split].
  - intros ->. reflexivity.
  - intros country ->. reflexivity.
  - intros ->. reflexivity.
Qed.

Lemma address_country_default_witness :
  construct (example_env nov_4_2026) Address
    [ ("street", VStr (py "456 University Ave")); ("city", VStr (py "College Town"));
      ("state", VStr (py "NY")); ("zip_code", VStr (py "54321")) ]
  = Ok home.
Proof.
  apply (proj1 (@address_country_default (example_env nov_4_2026)
                  [ ("street", VStr (py "456 University Ave"));
                    ("city", VStr (py "College Town"));
                    ("state", VStr (py "NY")); ("zip_code", VStr (py "54321")) ]
                  (py "456 University Ave") (py "College Town") (py "NY") (py "54321")
                  eq_refl eq_refl eq_refl eq_refl)).
  reflexivity.
Defined.



(** X3. A record of any of the four classes that is constructed has
    exactly the declared fields, in declaration order, and its JSON object
    has them as keys in that order. *)
Theorem constructed_has_declared_fields env cls data c d :
  In cls model_classes ->
  construct env cls data = Ok (VModel c d) ->
  c = cls_name cls
  /\ dict_keys d = field_names cls
  /\ exists entries,
       to_jsonable (VModel c d) = JObj entries
       /\ map fst entries = map py (field_names cls).
Proof.
  intros Hcls Hc.
  destruct (model_constructed env cls data c d Hcls Hc) as [Herr [-> ->]].
  assert (Hk : dict_keys (values (validate_fields env (fields cls) data no_values))
               = field_names cls).
  { rewrite validate_fields_keys; [reflexivity | | assumption].
    simpl. now apply model_class_NoDup. }
  split; [reflexivity | split; [exact Hk |]].
  eexists. split; [reflexivity |].
  rewrite map_map. simpl. rewrite <- Hk. unfold dict_keys. now rewrite map_map.
Qed.

Lemma constructed_has_declared_fields_witness :
  "Student" = cls_name Student
  /\ dict_keys (jane (Date 2000 5 15) (py "SecurePassword123") 26) = field_names Student
  /\ exists entries,
       to_jsonable (VModel "Student" (jane (Date 2000 5 15) (py "SecurePassword123") 26))
       = JObj entries
       /\ map fst entries = map py (field_names Student).
Proof.
  apply (@constructed_has_declared_fields (example_env nov_4_2026) Student
           (jane_data (Date 2000 5 15) (py "SecurePassword123") (VInt 2024))).
  - unfold model_classes. simpl. tauto.
  - reflexivity.
Defined.

(** ** What validation guarantees, whatever was passed *)

(** The value of the field named [k] in a constructed record. *)
Lemma model_field env cls data c d k pre f post :
  In cls model_classes ->
  construct env cls data = Ok (VModel c d) ->
  split_field (fields cls) k = Some (pre, f, post) ->
  exists v' before,
    dict_get d k = Some v'
    /\ field_outcome env data f before v'
    /\ (forall k', In k' (map name pre) -> dict_get before k' = dict_get d k').
Proof.
  intros Hcls Hc Hsplit.
  destruct (model_constructed env cls data c d Hcls Hc) as [Herr [-> _]].
  destruct (@validate_fields_at env data _ k pre f post no_values Hsplit
              (model_class_NoDup cls Hcls) Herr) as [v' H].
  exists v', (values (validate_fields env pre data no_values)). exact H.
Qed.

(** What the validators of an [int] with bounds let through. *)
Lemma validate_int_sound env ge le v v' :
  validate_type env (TInt ge le) v = Ok v' ->
  exists z, v' = VInt z
            /\ (forall b, ge = Some b -> b <= z)
            /\ (forall b, le = Some b -> z <= b).
Proof.
  simpl. destruct (int_validator env v) as [z|es]; [| discriminate].
  unfold int_size_validator.
  destruct ge as [g|], le as [l|]; simpl;
    repeat match goal with
           | |- context [Z.geb ?a ?b] => destruct (Z.geb_spec a b)
           | |- context [Z.leb ?a ?b] => destruct (Z.leb_spec a b)
           end; simpl; try discriminate;
    intros Hok; inversion Hok; subst; exists z; repeat split; intros b Hb;
    inversion Hb; subst; lia.
Qed.


(** What the validators of a [str] with a maximal length let through. *)
Lemma validate_str_sound env max_length v v' :
  validate_type env (TStr max_length) v = Ok v' ->
  exists s, v' = VStr s
            /\ (forall n, max_length = Some n -> (List.length s <= n)%nat).
Proof.
  simpl. destruct (str_validator env v) as [s|es]; [| discriminate].
  unfold anystr_length_validator.
  destruct max_length as [n|].
  - destruct (Nat.ltb_spec n (List.length s)) as [Hlt | Hle]; [discriminate |].
    intros Hok; inversion Hok; subst. exists s. split; [reflexivity |].
    intros n' Hn. inversion Hn; subst. lia.
  - intros Hok; inversion Hok; subst. exists s. split; [reflexivity | discriminate].
Qed.

(** A field without class validators: what [field_validate] returns is
    what the validators of its type return, or [None] where allowed. *)
Lemma field_validate_plain env f v before v' :
  class_validators f = [] ->
  field_validate env f v before = Ok v' ->
  (v = VNone /\ allow_none f = true /\ v' = VNone)
  \/ (v <> VNone /\ validate_type env (type_ f) v = Ok v').
Proof.
  intros Hcv. unfold field_validate. rewrite Hcv.
  destruct v; simpl;
    try (destruct (validate_type env (type_ f) _) eqn:E; simpl; [| discriminate];
         intros Hok; inversion Hok; subst; right; split; [discriminate | reflexivity]).
  destruct (allow_none f); [| discriminate].
  intros Hok; inversion Hok. left. auto.
Qed.

(** X4. Whatever is passed for [credits], a [Subject] that is constructed
    holds an integer between 1 and 6 there. *)
Theorem subject_credits_invariant env data c d :
  construct env Subject data = Ok (VModel c d) ->
  exists z, dict_get d "credits" = Some (VInt z) /\ 1 <= z <= 6.
Proof.
  intros Hc.
  destruct (model_field env Subject data c d "credits" _ _ _
              (or_introl eq_refl) Hc eq_refl) as [v' [before [Hd [Hout _]]]].
  unfold field_outcome in Hout. simpl in Hout.
  destruct (dict_get data "credits") as [v|]; [| destruct Hout; discriminate].
  apply field_validate_plain in Hout; [| reflexivity].
  destruct Hout as [[_ [Hn _]] | [_ Hout]]; [discriminate |].
  apply validate_int_sound in Hout. destruct Hout as [z [-> [Hge Hle]]].
  exists z. split; [exact Hd |].
  split; [apply Hge | apply Hle]; reflexivity.
Qed.

Lemma subject_credits_invariant_witness :
  exists z,
    dict_get (subject_data (py "Computer Science") (py "CS101") 4) "credits"
    = Some (VInt z)
    /\ 1 <= z <= 6.
Proof.
  apply (@subject_credits_invariant (example_env nov_4_2026)
           (subject_data (py "Computer Science") (py "CS101") 4) "Subject"
           (subject_data (py "Computer Science") (py "CS101") 4)).
  reflexivity.
Defined.



(** What [field_validate] went through when it returns a value. *)
Lemma field_validate_inv env f v before v' :
  field_validate env f v before = Ok v' ->
  (v = VNone /\ allow_none f = true
   /\ apply_validators env (class_validators f) VNone before = Ok v')
  \/ (v <> VNone
      /\ exists v1, validate_type env (type_ f) v = Ok v1
                    /\ apply_validators env (class_validators f) v1 before = Ok v').
Proof.
  unfold field_validate, at_field.
  destruct v;
    try (destruct (validate_type env (type_ f) _) as [v1|es] eqn:E; [| discriminate];
         destruct (apply_validators env (class_validators f) v1 before) eqn:E';
         [| discriminate];
         intros Hok; inversion Hok; subst; right; split; [discriminate |];
         exists v1; auto).
  destruct (allow_none f); [| discriminate].
  destruct (apply_validators env (class_validators f) VNone before) eqn:E';
    [| discriminate].
  intros Hok; inversion Hok; subst. left. auto.
Qed.




(** X7. Whatever is passed for [phone], an [EmergencyContact] that is
    constructed holds there a text of digits and hyphens with at least one
    digit. *)
Theorem contact_phone_invariant env data c d :
  construct env EmergencyContact data = Ok (VModel c d) ->
  exists p,
    dict_get d "phone" = Some (VStr p)
    /\ only_digits_and_hyphens p = true /\ has_digit p = true.
Proof.
  intros Hc.
  destruct (model_field env EmergencyContact data c d "phone" _ _ _
              (or_intror (or_intror (or_introl eq_refl))) Hc eq_refl)
    as [v' [before [Hd [Hout _]]]].
  unfold field_outcome in Hout. simpl in Hout.
  destruct (dict_get data "phone") as [v|]; [| destruct Hout; discriminate].
  apply field_validate_inv in Hout.
  destruct Hout as [[_ [Hn _]] | [_ [v1 [Hty Hcv]]]]; [discriminate |].
  apply validate_str_sound in Hty. destruct Hty as [p [-> _]].
  simpl in Hcv. unfold validate_phone in Hcv.
  rewrite isdigit_replace_hyphen in Hcv.
  destruct (only_digits_and_hyphens p && has_digit p) eqn:E; [| discriminate].
  simpl in Hcv. inversion Hcv; subst.
  apply andb_true_iff in E. exists p. tauto.
Qed.

Lemma contact_phone_invariant_witness :
  exists p,
    dict_get (contact_data (py "Robert Smith") (py "Father") (py "555-987-6543")) "phone"
    = Some (VStr p)
    /\ only_digits_and_hyphens p = true /\ has_digit p = true.
Proof.
  apply (@contact_phone_invariant (example_env nov_4_2026)
           (contact_data (py "Robert Smith") (py "Father") (py "555-987-6543"))
           "EmergencyContact"
           (contact_data (py "Robert Smith") (py "Father") (py "555-987-6543"))).
  reflexivity.
Defined.

(** ** Derived fields that are supplied *)

(** X8. A [full_name] supplied as a text that is not empty is kept; an
    empty text is replaced, like a missing one, by [first_name], a space
    and [last_name]. *)
Theorem full_name_supplied env data s fn ln c d :
  dict_get data "full_name" = Some (VStr s) ->
  dict_get data "first_name" = Some (VStr fn) ->
  dict_get data "last_name" = Some (VStr ln) ->
  construct env Student data = Ok (VModel c d) ->
  dict_get d "full_name"
  = Some (VStr (if str_truthy s then s else fn ++ py " " ++ ln)).
Proof.
  intros Hfull Hfirst Hlast Hc.
  assert (H1 : dict_get d "first_name" = Some (VStr fn)).
  { eapply Student_field_given; [exact Hc | reflexivity | exact Hfirst | reflexivity]. }
  assert (H2 : dict_get d "last_name" = Some (VStr ln)).
  { eapply Student_field_given; [exact Hc | reflexivity | exact Hlast | reflexivity]. }
  destruct (@Student_field env data c d "full_name" _ _ _ Hc eq_refl)
    as [v' [before [Hd [Hout Hbefore]]]].
  rewrite Hd. unfold field_outcome in Hout. simpl in Hout.
  rewrite Hfull in Hout.
  unfold field_validate in Hout. simpl in Hout.
  unfold set_full_name, dict_in, dict_get_or_none in Hout. simpl in Hout.
  rewrite !Hbefore in Hout by (simpl; tauto).
  rewrite H1, H2 in Hout. simpl in Hout.
  destruct (str_truthy s); inversion Hout; reflexivity.
Qed.

Lemma full_name_supplied_witness :
  dict_get (jane (Date 2000 5 15) (py "SecurePassword123") 26) "full_name"
  = Some (VStr (if str_truthy [] then [] else py "Jane" ++ py " " ++ py "Smith")).
Proof.
  apply (@full_name_supplied (example_env nov_4_2026)
           (jane_data (Date 2000 5 15) (py "SecurePassword123") (VInt 2024)
            ++ [("full_name", VStr [])])
           [] (py "Jane") (py "Smith") "Student"
           (jane (Date 2000 5 15) (py "SecurePassword123") 26));
    reflexivity.
Defined.

(** X9. An [age] supplied as an integer is kept as it is, whatever the
    date of birth and the current date: it is not compared with them. *)
Theorem age_supplied env data a c d :
  dict_get data "age" = Some (VInt a) ->
  construct env Student data = Ok (VModel c d) ->
  dict_get d "age" = Some (VInt a).
Proof.
  intros Hage Hc.
  eapply Student_field_given; [exact Hc | reflexivity | exact Hage | reflexivity].
Qed.

Lemma age_supplied_witness :
  dict_get (dict_set (jane (Date 2000 5 15) (py "SecurePassword123") 26) "age" (VInt 99))
    "age"
  = Some (VInt 99).
Proof.
  apply (@age_supplied (example_env nov_4_2026)
           (jane_data (Date 2000 5 15) (py "SecurePassword123") (VInt 2024)
            ++ [("age", VInt 99)])
           99 "Student"
           (dict_set (jane (Date 2000 5 15) (py "SecurePassword123") 26) "age" (VInt 99)));
    reflexivity.
Defined.

(** X10. The derived age is the difference of the years or one less; it
    is the difference exactly when the month and day of birth are not later
    in the year than today's, in particular on the birthday itself. *)
Theorem age_bounds env data dob c d :
  dict_get data "age" = None ->
  dict_get data "date_of_birth" = Some (VDate dob) ->
  construct env Student data = Ok (VModel c d) ->
  exists a,
    dict_get d "age" = Some (VInt a)
    /\ year (today env) - year dob - 1 <= a <= year (today env) - year dob
    /\ (a = year (today env) - year dob
        <-> pair_lt (month (today env), day (today env)) (month dob, day dob) = false)
    /\ (month dob = month (today env) -> day dob = day (today env) ->
        a = year (today env) - year dob).
Proof.
  intros Hage Hdob Hc.
  exists (whole_years (today env) dob).
  split; [exact (@age_derived env data dob c d Hage Hdob Hc) |].
  unfold whole_years, pair_lt. simpl.
  split; [| split].
  - destruct (Z.eqb _ _); destruct (Z.ltb _ _); lia.
  - destruct (Z.eqb _ _); destruct (Z.ltb _ _); split; intros; (lia || discriminate || reflexivity).
  - intros -> ->. rewrite Z.eqb_refl, Z.ltb_irrefl. lia.
Qed.

Lemma age_bounds_witness :
  exists a,
    dict_get (jane (Date 2000 11 4) (py "SecurePassword123") 26) "age" = Some (VInt a)
    /\ 2026 - 2000 - 1 <= a <= 2026 - 2000
    /\ (a = 2026 - 2000 <-> pair_lt (11, 4) (11, 4) = false)
    /\ (11 = 11 -> 4 = 4 -> a = 2026 - 2000).
Proof.
  apply (@age_bounds (example_env nov_4_2026)
           (jane_data (Date 2000 11 4) (py "SecurePassword123") (VInt 2024))
           (Date 2000 11 4) "Student"
           (jane (Date 2000 11 4) (py "SecurePassword123") 26));
    reflexivity.
Defined.

(** ** The gender *)





(** ** The graduation year and the clock *)

Section Clock.

Variable env : Env.
Variable data : dict.

(** A field that is left out, has a default and no validator declared
    [always], gets its default whatever happens to the other fields. *)
Lemma validate_fields_default fs k pre f post st :
  split_field fs k = Some (pre, f, post) ->
  NoDup (map name fs) ->
  dict_get data k = None ->
  required f = false ->
  validate_always f = false ->
  dict_get (values (validate_fields env fs data st)) k = Some (get_default f env).
Proof.
  intros Hsplit Hnd Hv Hreq Halw. apply split_field_spec in Hsplit.
  destruct Hsplit as [-> <-].
  rewrite validate_fields_app.
  change (validate_fields env (f :: post) data ?s)
    with (validate_fields env post data (validate_field env data s f)).
  rewrite map_app in Hnd. apply NoDup_remove_2 in Hnd.
  rewrite validate_fields_frame
    by (intros HIn; apply Hnd; apply in_or_app; now right).
  unfold validate_field. rewrite Hv, Hreq, Halw. simpl.
  apply dict_get_set_eq.
Qed.

(** The cross-field error, once the loop has left a graduation year other
    than zero that precedes the enrollment year. *)
Lemma cross_field_error_raised g t :
  let st := validate_fields env (fields Student) data no_values in
  dict_get (values st) "graduation_year" = Some (VInt g) ->
  dict_get (values st) "enrollment_date" = Some (VDatetime t) ->
  g <> 0 ->
  g < dt_year t ->
  exists es, construct env Student data = Err es /\ In cross_field_error es.
Proof.
  cbv zeta. intros Hg Ht Hnz Hlt.
  unfold construct. rewrite validate_model_Student. cbv zeta.
  set (st := validate_fields env (fields Student) data no_values) in *.
  rewrite (@check_graduation_year_spec env (values st) g t Hg Ht).
  destruct (Z.eqb_spec g 0); [contradiction |].
  destruct (Z.ltb_spec g (dt_year t)); [| lia]. simpl.
  match goal with
  | |- exists es, match ?l with _ => _ end = _ /\ _ =>
      assert (HIn : In cross_field_error l) by (apply in_or_app; right; now left);
      destruct l as [|e es']; [contradiction | exists (e :: es'); auto]
  end.
Qed.

Lemma graduation_year_kept g :
  dict_get data "graduation_year" = Some (VInt g) ->
  dict_get (values (validate_fields env (fields Student) data no_values))
    "graduation_year" = Some (VInt g).
Proof.
  intros Hg. eapply validate_fields_given;
    [reflexivity | exact Student_fields_NoDup | exact Hg | reflexivity].
Qed.


(** X13. In a [Student] that is constructed with a graduation year other
    than zero, the graduation year is not before the year of the enrollment
    date the record holds. *)
Theorem graduation_not_before_enrollment g c d :
  dict_get data "graduation_year" = Some (VInt g) ->
  g <> 0 ->
  construct env Student data = Ok (VModel c d) ->
  exists t,
    dict_get d "enrollment_date" = Some (VDatetime t)
    /\ dict_get d "graduation_year" = Some (VInt g)
    /\ dt_year t <= g.
Proof.
  intros Hg Hnz Hc.
  destruct (@Student_field env data c d "enrollment_date" _ _ _ Hc eq_refl)
    as [v' [before [Hd [Hout _]]]].
  assert (Ht : exists t, v' = VDatetime t).
  { unfold field_outcome in Hout. simpl in Hout.
    destruct (dict_get data "enrollment_date") as [v|].
    - apply field_validate_plain in Hout; [| reflexivity].
      destruct Hout as [[_ [Hn _]] | [_ Hout]]; [discriminate |].
      simpl in Hout. unfold instance_or_coerce in Hout.
      destruct (is_datetime v) eqn:E.
      + inversion Hout; subst. destruct v'; try discriminate. eauto.
      + destruct (coerce env TDatetime v) as [v1|]; [| discriminate].
        destruct (is_datetime v1) eqn:E1; [| discriminate].
        inversion Hout; subst. destruct v'; try discriminate. eauto.
    - destruct Hout as [_ ->]. simpl. eauto. }
  destruct Ht as [t ->]. exists t.
  pose proof Hc as Hc'. apply Student_constructed in Hc'.
  destruct Hc' as [_ [Hdv [Hrule _]]].
  assert (Hg' : dict_get d "graduation_year" = Some (VInt g)).
  { rewrite Hdv. now apply graduation_year_kept. }
  split; [exact Hd | split; [exact Hg' |]].
  rewrite (@check_graduation_year_spec env d g t Hg' Hd) in Hrule.
  destruct (Z.eqb_spec g 0); [contradiction |].
  destruct (Z.ltb_spec g (dt_year t)); [discriminate | lia].
Qed.

End Clock.


Lemma graduation_not_before_enrollment_witness :
  exists t,
    dict_get (jane (Date 2000 5 15) (py "SecurePassword123") 26) "enrollment_date"
    = Some (VDatetime t)
    /\ dict_get (jane (Date 2000 5 15) (py "SecurePassword123") 26) "graduation_year"
       = Some (VInt 2024)
    /\ dt_year t <= 2024.
Proof.
  apply (@graduation_not_before_enrollment (example_env nov_4_2026)
           (jane_data (Date 2000 5 15) (py "SecurePassword123") (VInt 2024))
           2024 "Student" (jane (Date 2000 5 15) (py "SecurePassword123") 26)).
  - reflexivity.
  - discriminate.
  - reflexivity.
Defined.

(** ** The script *)

(** X14. The script as written fails once the clock is past 2024: the
    student is created without an enrollment date, which then is the current
    time, and with the graduation year 2024; the construction raises the
    cross-field error and nothing is printed. *)
Theorem script_fails_after_2024 env :
  2024 < dt_year (now env) ->
  exists es, main env = Err es /\ In cross_field_error es.
Proof.
  intros Hy. unfold main, student.
  change (construct env Subject
            [ ("name", VStr (py "Computer Science")); ("code", VStr (py "CS101"));
              ("credits", VInt 4) ])
    with (@Ok value errors
            (VModel "Subject" (subject_data (py "Computer Science") (py "CS101") 4))).
  change (construct env Subject
            [ ("name", VStr (py "Mathematics")); ("code", VStr (py "MATH201"));
              ("credits", VInt 3) ])
    with (@Ok value errors
            (VModel "Subject" (subject_data (py "Mathematics") (py "MATH201") 3))).
  change (construct env Address
            [ ("street", VStr (py "456 University Ave")); ("city", VStr (py "College Town"));
              ("state", VStr (py "NY")); ("zip_code", VStr (py "54321")) ])
    with (@Ok value errors home).
  change (construct env EmergencyContact
            [ ("name", VStr (py "Robert Smith")); ("relationship", VStr (py "Father"));
              ("phone", VStr (py "555-987-6543")) ])
    with (@Ok value errors
            (VModel "EmergencyContact"
               (contact_data (py "Robert Smith") (py "Father") (py "555-987-6543")))).
  cbn [bind].
  match goal with
  | |- context [construct env Student ?data] =>
      destruct (@cross_field_error_raised env data 2024 (now env)) as [es [Hc Hin]];
        [ now apply graduation_year_kept
        | apply (@validate_fields_default env data (fields Student) "enrollment_date"
                   _ _ _ no_values eq_refl Student_fields_NoDup); reflexivity
        | discriminate
        | exact Hy
        | rewrite Hc; exists es; auto ]
  end.
Qed.

Lemma script_fails_after_2024_witness :
  exists es,
    main {| today := nov_4_2026;
            now := Datetime nov_4_2026 12 0 0 0;
            coerce := coerce (example_env nov_4_2026);
            validate_email := validate_email (example_env nov_4_2026);
            validate_url := validate_url (example_env nov_4_2026);
            set_order := set_order (example_env nov_4_2026);
            float_repr := float_repr (example_env nov_4_2026);
            str_other := str_other (example_env nov_4_2026) |} = Err es
    /\ In cross_field_error es.
Proof.
  apply script_fails_after_2024. reflexivity.
Defined.

(** ** Assignment without validation *)



(** ** Nested records, the address of the mail, the defaults *)








Lemma split_field_In fs f :
  NoDup (map name fs) -> In f fs ->
  exists pre post, split_field fs (name f) = Some (pre, f, post).
Proof.
  induction fs as [|g fs IH]; simpl; intros Hnd Hin; [contradiction |].
  inversion Hnd as [|? ? Hg Hnd']; subst.
  destruct Hin as [-> | Hin].
  - rewrite String.eqb_refl. eauto.
  - destruct (String.eqb (name g) (name f)) eqn:E.
    + apply String.eqb_eq in E. exfalso. apply Hg. rewrite E. now apply in_map.
    + destruct (IH Hnd' Hin) as [pre [post ->]]. eauto.
Qed.

(** X20. In a record of any of the four classes that is constructed, a
    field that has a default and no validator declared [always], and that is
    left out, holds its default: [country] is USA, [active] is true, [gpa]
    is 0.0, the collections are empty, the optional texts are [None], and
    [enrollment_date] is the reading of the clock. *)
Theorem omitted_fields_hold_defaults env cls data c d f :
  In cls model_classes ->
  In f (fields cls) ->
  required f = false ->
  validate_always f = false ->
  dict_get data (name f) = None ->
  construct env cls data = Ok (VModel c d) ->
  dict_get d (name f) = Some (get_default f env).
Proof.
  intros Hcls Hf Hreq Halw Hmiss Hc.
  destruct (model_constructed env cls data c d Hcls Hc) as [_ [-> _]].
  destruct (split_field_In (fields cls) f (model_class_NoDup cls Hcls) Hf)
    as [pre [post Hsplit]].
  exact (@validate_fields_default env data (fields cls) (name f) pre f post no_values
           Hsplit (model_class_NoDup cls Hcls) Hmiss Hreq Halw).
Qed.

Lemma omitted_fields_hold_defaults_witness :
  dict_get (jane (Date 2000 5 15) (py "SecurePassword123") 26) "active"
  = Some (VBool true).
Proof.
  apply (@omitted_fields_hold_defaults (example_env nov_4_2026) Student
           (jane_data (Date 2000 5 15) (py "SecurePassword123") (VInt 2024))
           "Student" (jane (Date 2000 5 15) (py "SecurePassword123") 26)
           (default_field "active" TBool (VBool true))).
  - unfold model_classes. simpl. tauto.
  - simpl. do 9 right. left. reflexivity.
  - reflexivity.
  - reflexivity.
  - reflexivity.
  - reflexivity.
Defined.

End RecordsSpec.

(* ===================================================================== *)
(** * Further properties of the variadic demo                              *)
(* ===================================================================== *)

Module CallsSpec.
Import Py ArgsKwargs Shapes.
Local Unset Implicit Arguments.
Local Open Scope list_scope.

Section Calls.

Variable object : Type.
Variable format : object -> str.

(** ** What is printed *)

Lemma print_args_lines (args : list object) : forall i out,
  print_args format i args out = out ++ argument_lines format i args.
Proof.
  induction args as [|arg rest IH]; intros i out; cbn [print_args argument_lines].
  - now rewrite app_nil_r.
  - rewrite IH. unfold print, argument_line. now rewrite <- !app_assoc.
Qed.

Lemma print_kwargs_lines (items : list (str * object)) : forall out,
  print_kwargs format items out = out ++ flat_map (keyword_line format) items.
Proof.
  induction items as [|[key value] rest IH]; intros out;
    cbn [print_kwargs flat_map].
  - now rewrite app_nil_r.
  - rewrite IH. unfold print, keyword_line. cbn [fst snd]. now rewrite <- !app_assoc.
Qed.

(** X16. [demo_function] leaves what was printed before as it is and adds
    to it: the first header, one line per unnamed value in order, each with
    its index counted from zero, an empty line and the second header, and one
    line per named value in the order of the mapping. *)
Theorem demo_function_output (args : list object) (kwargs : list (str * object))
    (out : str) :
  demo_function format args kwargs out
  = out ++ positional_header ++ argument_lines format 0 args
        ++ keyword_header ++ flat_map (keyword_line format) kwargs.
Proof.
  unfold demo_function. rewrite print_kwargs_lines. unfold print at 1.
  rewrite print_args_lines. unfold print, positional_header, keyword_header.
  now rewrite <- !app_assoc.
Qed.

(** ** What a call binds *)

Lemma has_key_In (kwargs : list (str * object)) k :
  has_key kwargs k = true <-> In k (map fst kwargs).
Proof.
  unfold has_key. rewrite existsb_exists. split.
  - intros [[k' v] [Hin E]]. apply ArgsKwargsSpec.str_eqb_eq in E. simpl in E.
    subst k'. apply in_map_iff. exists (k, v). auto.
  - intros H. apply in_map_iff in H. destruct H as [[k' v] [E Hin]]. simpl in E.
    subst k'. exists (k, v). split; [assumption |].
    now apply ArgsKwargsSpec.str_eqb_eq.
Qed.

Lemma NoDup_snoc (l : list str) x : NoDup l -> ~ In x l -> NoDup (l ++ [x]).
Proof.
  intros Hl Hx. apply NoDup_app; [assumption | repeat constructor; auto |].
  intros a Ha [<- | []]. contradiction.
Qed.

(** One more named value: added at the end when its name is new. *)
Lemma add_keyword_spec (kwargs : list (str * object)) k v :
  (In k (map fst kwargs) -> add_keyword kwargs k v = None)
  /\ (~ In k (map fst kwargs) -> add_keyword kwargs k v = Some (kwargs ++ [(k, v)])).
Proof.
  unfold add_keyword. destruct (has_key kwargs k) eqn:E.
  - apply has_key_In in E. split; [reflexivity | contradiction].
  - split; [| reflexivity].
    intros H. apply has_key_In in H. congruence.
Qed.

Lemma add_mapping_spec (m : list (str * object)) : forall kwargs,
  NoDup (map fst kwargs) ->
  (NoDup (map fst (kwargs ++ m)) -> add_mapping kwargs m = Some (kwargs ++ m))
  /\ (~ NoDup (map fst (kwargs ++ m)) -> add_mapping kwargs m = None).
Proof.
  induction m as [|[k v] m IH]; intros kwargs Hk; simpl.
  - rewrite app_nil_r. split; [reflexivity | contradiction].
  - destruct (add_keyword_spec kwargs k v) as [Hdup Hnew].
    destruct (in_dec (list_eq_dec N.eq_dec) k (map fst kwargs)) as [Hin | Hnin].
    + rewrite (Hdup Hin). split; [| reflexivity].
      intros Hnd. rewrite map_app in Hnd. simpl in Hnd.
      apply NoDup_remove_2 in Hnd. exfalso. apply Hnd. apply in_or_app. now left.
    + rewrite (Hnew Hnin).
      assert (Hk' : NoDup (map fst (kwargs ++ [(k, v)]))).
      { rewrite map_app. simpl. now apply NoDup_snoc. }
      destruct (IH (kwargs ++ [(k, v)]) Hk') as [Hpos Hneg].
      rewrite <- app_assoc in Hpos, Hneg. simpl in Hpos, Hneg.
      split; assumption.
Qed.

Lemma bind_arguments_spec (call : list (argument object)) : forall args kwargs,
  NoDup (map fst kwargs) ->
  (NoDup (map fst (kwargs ++ keyword_entries call)) ->
   bind_arguments call args kwargs
   = Some (args ++ positional_values call, kwargs ++ keyword_entries call))
  /\ (~ NoDup (map fst (kwargs ++ keyword_entries call)) ->
      bind_arguments call args kwargs = None).
Proof.
  induction call as [|a call IH]; intros args kwargs Hk; simpl.
  - rewrite !app_nil_r. split; [reflexivity | contradiction].
  - destruct a as [v | seq | k v | m]; simpl.
    + destruct (IH (args ++ [v]) kwargs Hk) as [Hpos Hneg].
      rewrite <- app_assoc in Hpos. simpl in Hpos. split; assumption.
    + destruct (IH (args ++ seq) kwargs Hk) as [Hpos Hneg].
      rewrite <- app_assoc in Hpos. split; assumption.
    + destruct (add_keyword_spec kwargs k v) as [Hdup Hnew].
      destruct (in_dec (list_eq_dec N.eq_dec) k (map fst kwargs)) as [Hin | Hnin].
      * rewrite (Hdup Hin). split; [| reflexivity].
        intros Hnd. rewrite map_app in Hnd. simpl in Hnd.
        apply NoDup_remove_2 in Hnd. exfalso. apply Hnd. apply in_or_app. now left.
      * rewrite (Hnew Hnin).
        assert (Hk' : NoDup (map fst (kwargs ++ [(k, v)]))).
        { rewrite map_app. simpl. now apply NoDup_snoc. }
        destruct (IH args (kwargs ++ [(k, v)]) Hk') as [Hpos Hneg].
        rewrite <- app_assoc in Hpos, Hneg. simpl in Hpos, Hneg.
        split; assumption.
    + destruct (add_mapping_spec m kwargs Hk) as [Hpos Hneg].
      destruct (ListDec.NoDup_dec (list_eq_dec N.eq_dec) (map fst (kwargs ++ m)))
        as [Hnd | Hnd].
      * rewrite (Hpos Hnd).
        destruct (IH args (kwargs ++ m) Hnd) as [Hpos' Hneg'].
        rewrite <- app_assoc in Hpos', Hneg'. split; assumption.
      * rewrite (Hneg Hnd). split; [| reflexivity].
        intros Hall. exfalso. apply Hnd.
        rewrite app_assoc, map_app in Hall. now apply NoDup_app_remove_r in Hall.
Qed.

(** X17. Whatever mix of plain, starred, named and double-starred
    arguments a call of [demo_function] is written with, the function
    receives the unnamed values in their order and the named values in their
    order, provided no name is given twice; when a name is given twice, be it
    written out or inside a mapping, the call raises and prints nothing. *)
Theorem call_binds_in_order (call : list (argument object)) (out : str) :
  (NoDup (map fst (keyword_entries call)) ->
   call_demo_function format call out
   = Some (demo_function format (positional_values call) (keyword_entries call) out))
  /\ (~ NoDup (map fst (keyword_entries call)) ->
      call_demo_function format call out = None).
Proof.
  unfold call_demo_function.
  destruct (bind_arguments_spec call [] [] (NoDup_nil _)) as [Hpos Hneg].
  simpl in Hpos, Hneg. split; intros H.
  - now rewrite (Hpos H).
  - now rewrite (Hneg H).
Qed.

End Calls.

Lemma demo_function_output_witness :
  demo_function obj_format [OInt 10; OInt 20] [(py "fruit", OStr (py "apple"))] (py ">")
  = py ">" ++ positional_header
      ++ argument_lines obj_format 0 [OInt 10; OInt 20]
      ++ keyword_header
      ++ flat_map (keyword_line obj_format) [(py "fruit", OStr (py "apple"))].
Proof.
  apply (demo_function_output obj obj_format).
Defined.

Lemma call_binds_in_order_witness :
  call_demo_function obj_format
    [ Positional (OInt 1); Starred lst; Keyword (py "fruit") (OStr (py "apple"));
      DoubleStarred person_info ] []
  = Some (demo_function obj_format
            (OInt 1 :: lst) ((py "fruit", OStr (py "apple")) :: person_info) [])
  /\ call_demo_function obj_format
       [ Keyword (py "name") (OStr (py "Bob")); DoubleStarred person_info ] []
     = None.
Proof.
  split.
  - apply (proj1 (call_binds_in_order obj obj_format
                    [ Positional (OInt 1); Starred lst;
                      Keyword (py "fruit") (OStr (py "apple"));
                      DoubleStarred person_info ] [])).
    repeat (constructor; [simpl; intuition discriminate |]). constructor.
  - apply (proj2 (call_binds_in_order obj obj_format
                    [ Keyword (py "name") (OStr (py "Bob"));
                      DoubleStarred person_info ] [])).
    simpl. intros H. inversion H as [|? ? Hin _]; subst. apply Hin. now left.
Defined.

End CallsSpec.
